(** * Request classification, decision cache and hash synthesizer of the
    network interceptor (src/1.js)

    A shallow embedding of the parts of [src/1.js] that classify an outgoing
    request ([shouldInterceptUrl], [SmartDataClassifier]), memoize the
    classification ([URLClassificationCache]), synthesize the feature-vector
    hashes ([FeatureVectorSpoofer.calculateHash]) and answer a blocked
    [fetch] with a fabricated response; and of the parts around them: the
    shims of [XMLHttpRequest], Axios and [http.request], the session
    identifiers ([generateUUID], [isSessionId], [SessionManager]), the
    fake-data cache and the feature vector.

    Modelling conventions.
    - A JavaScript string is a [string]; its code units are the characters
      of the [string] and [toLowerCase] maps [A-Z] to [a-z].  All pattern
      tables of the source are ASCII.
    - 32-bit integers are [Z] with the wrap-around written out ([toInt32]).
    - The JavaScript [Map] is an association list kept in insertion order,
      because the eviction of the cache depends on that order.
    - Mutable singletons are explicit states; [Date.now()] is an argument.
    - [Math.random()] is a sequence of doubles in the unit interval, each
      given as a dyadic rational.
    - The seed data of [calculateHash] enters through the text that
      [JSON.stringify] gives for it, and the index is an integer, as at
      every call in the source.
    - Diagnostic logging ([log], [logRequestDetails]) only writes to the
      console and is left out.
    - The [reason] texts are the literals of the source; they are stored
      and never inspected. *)

From Stdlib Require Import ZArith NArith List Bool Lia String Ascii.
From Stdlib Require Import DecimalString HexadecimalString.
From Stdlib Require HexadecimalFacts HexadecimalPos HexadecimalN.
Import ListNotations.

Open Scope string_scope.

(** ** JavaScript primitives used by the source *)

(** The values that reach the [data], [body] and [url] parameters.  The
    source only distinguishes strings from other values, and truthy values
    from falsy ones; a truthy non-string value is carried with the text
    [JSON.stringify] gives for it. *)
Inductive js_value : Type :=
| JUndefined                 (* an absent argument, and the falsy non-strings *)
| JString (s : string)
| JObject (json : string).   (* a truthy non-string value *)

(** [String.prototype.toLowerCase] on one code unit. *)
Definition lower_ascii (c : ascii) : ascii :=
  let n := nat_of_ascii c in
  if (65 <=? n)%nat && (n <=? 90)%nat then ascii_of_nat (n + 32) else c.

Fixpoint toLowerCase (s : string) : string :=
  match s with
  | EmptyString => EmptyString
  | String c s' => String (lower_ascii c) (toLowerCase s')
  end.

(** [s.includes(sub)]: [sub] occurs in [s] at some position. *)
Fixpoint includes (s sub : string) : bool :=
  String.prefix sub s ||
  match s with
  | EmptyString => false
  | String _ s' => includes s' sub
  end.

(** [arr.some(f)]. *)
Definition some {A : Type} (f : A -> bool) (arr : list A) : bool := existsb f arr.

(** [ToInt32]: the value modulo 2^32, read as a signed 32-bit integer. *)
Definition toInt32 (z : Z) : Z := ((z + 2147483648) mod 4294967296 - 2147483648)%Z.

(** [charCodeAt] of each code unit. *)
Fixpoint charCodes (s : string) : list Z :=
  match s with
  | EmptyString => []
  | String c s' => Z.of_nat (nat_of_ascii c) :: charCodes s'
  end.

(** One round of the rolling hash shared by [generateCacheKey] and
    [calculateHash]:
    [hash = ((hash << 5) - hash) + char; hash = hash & hash]. *)
Definition hashStep (hash char : Z) : Z :=
  let hash := (toInt32 (Z.shiftl hash 5) - hash + char)%Z in
  toInt32 hash.

(** [String(n)] for an integer [n]. *)
Definition Number_toString (n : Z) : string :=
  DecimalString.NilZero.string_of_int (Z.to_int n).

(** [n.toString(16)] for an integer [n]. *)
Definition Number_toString16 (n : Z) : string :=
  let digits := HexadecimalString.NilZero.string_of_uint (N.to_hex_uint (Z.abs_N n)) in
  if (n <? 0)%Z then String "-" digits else digits.

(** [s.padStart(2, '0')]. *)
Definition padStart2 (s : string) : string :=
  match String.length s with
  | 0 => "00"
  | 1 => String "0" s
  | _ => s
  end.

(** [s.replace(/-/g, '')]. *)
Fixpoint removeDashes (s : string) : string :=
  match s with
  | EmptyString => EmptyString
  | String c s' => if Ascii.eqb c "-" then removeDashes s' else String c (removeDashes s')
  end.

(** [s.substring(0, n)]. *)
Definition substring0 (n : nat) (s : string) : string := String.substring 0 n s.

(** [parseInt(c, 16)] of a one-character string; [None] is [NaN], which is
    also the result for [undefined]. *)
Definition hexValue (c : ascii) : option Z :=
  let n := nat_of_ascii c in
  if (48 <=? n)%nat && (n <=? 57)%nat then Some (Z.of_nat (n - 48))
  else if (97 <=? n)%nat && (n <=? 102)%nat then Some (Z.of_nat (n - 87))
  else if (65 <=? n)%nat && (n <=? 70)%nat then Some (Z.of_nat (n - 55))
  else None.

Definition parseInt16 (c : option ascii) : option Z :=
  match c with
  | Some c => hexValue c
  | None => None
  end.

(** The operand conversion of [^]: [NaN] becomes 0. *)
Definition xorOperand (v : option Z) : Z :=
  match v with
  | Some z => z
  | None => 0%Z
  end.

(** ** Configuration and pattern tables (src/1.js, lines 47-289) *)

Module INTERCEPTOR_CONFIG.
Definition enableFeatureVectorSpoofer : bool := true.
Definition enableEnhancedWhitelist : bool := true.
End INTERCEPTOR_CONFIG.

Definition TELEMETRY_PATTERNS : list string :=
  [ "record-session-events"; "report-error"; "record-request-events";
    "record-user-events"; "record-preference-sample"; "chat-feedback";
    "completion-feedback"; "next-edit-feedback"; "analytics"; "telemetry";
    "usage-statistics"; "user-stats"; "event-logging"; "data-collection";
    "data-gathering"; "data-submission"; "monitoring-data"; "observation-data" ].

Definition PRECISE_TELEMETRY_ENDPOINTS : list string :=
  [ "/record-session-events"; "/record-request-events"; "/record-user-events";
    "/record-preference-sample"; "/chat-feedback"; "/completion-feedback";
    "/next-edit-feedback"; "/analytics"; "/telemetry"; "/usage"; "/stats";
    "segment.io"; "api.segment.io" ].

Definition ESSENTIAL_ENDPOINTS : list string :=
  [ "report-feature-vector"; "next-edit-stream"; "batch-upload"; "memorize";
    "completion"; "chat-stream"; "subscription-info"; "get-models"; "token";
    "codebase-retrieval"; "agents/"; "remote-agents"; "list-stream";
    "augment-api"; "augment-backend"; "workspace-context"; "symbol-index";
    "blob-upload"; "codebase-upload"; "file-sync"; "is-user-configured";
    "list-repos"; "d16.api.augmentcode.com"; "client-metrics"; "users/me";
    "api/v1/users/me"; "clawcloudrun.com";
    "nlkxyddsfbdf.ap-southeast-1.clawcloudrun.com"; "/proxy/gemini/";
    "streamGenerateContent"; "generateContent"; "/v1beta/models/";
    "gemini-2.5-pro" ].

Definition CODE_INDEXING_PATTERNS : list string :=
  [ "checkpoint-blobs"; "batch-upload"; "codebase-retrieval"; "file-sync";
    "workspace-context"; "symbol-index"; "blob-upload"; "codebase-upload";
    "agents/"; "augment-api"; "augment-backend" ].

Definition enhancedBlockedPatterns : list string :=
  [ "bug_report"; "error_report"; "crash_report"; "diagnostic_data";
    "segment.io"; "api.segment.io"; "/v1/batch"; "segment";
    "writeKey"; "analytics.track"; "analytics.identify";
    "user_id"; "session_id"; "anonymous_id"; "device_id";
    "fingerprint"; "tenant_id"; "client_id" ].

Definition INTERCEPT_PATTERNS : list string :=
  TELEMETRY_PATTERNS ++ enhancedBlockedPatterns.

(** The local table of [shouldInterceptUrl] (lines 1968-1972). *)
Definition importantPatterns : list string :=
  [ "vscode-webview://"; "vscode-file://"; "vscode-resource://";
    "localhost:"; "127.0.0.1:"; "file://"; "data:"; "blob:";
    "chrome-extension://"; "moz-extension://"; "ms-browser-extension://" ].

(** ** The JavaScript [Map], as far as the cache uses it

    Entries are kept in insertion order: [keys().next().value] is the key
    inserted earliest, [set] on a present key replaces the value in place
    and [set] on a new key appends. *)
Module JSMap.
Section Ops.
Context {V : Type}.

Definition t : Type := list (string * V).

Definition empty : t := [].

Definition size (m : t) : nat := List.length m.

Fixpoint get (m : t) (k : string) : option V :=
  match m with
  | [] => None
  | (k', v) :: m' => if String.eqb k' k then Some v else get m' k
  end.

Definition has (m : t) (k : string) : bool :=
  match get m k with
  | Some _ => true
  | None => false
  end.

(** [m.keys().next().value]; [None] is [undefined]. *)
Definition firstKey (m : t) : option string :=
  match m with
  | [] => None
  | (k, _) :: _ => Some k
  end.

Fixpoint remove (m : t) (k : string) : t :=
  match m with
  | [] => []
  | (k', v) :: m' => if String.eqb k' k then m' else (k', v) :: remove m' k
  end.

(** [m.delete(k)]; deleting [undefined] from a map of string keys does
    nothing. *)
Definition delete (m : t) (k : option string) : t :=
  match k with
  | Some k => remove m k
  | None => m
  end.

Fixpoint set (m : t) (k : string) (v : V) : t :=
  match m with
  | [] => [(k, v)]
  | (k', v') :: m' =>
      if String.eqb k' k then (k', v) :: m' else (k', v') :: set m' k v
  end.

Definition keys (m : t) : list string := List.map fst m.
End Ops.
Arguments t : clear implicits.
End JSMap.

(** ** URLClassificationCache (src/1.js, lines 5839-5961) *)

(** The classification result built by [shouldInterceptUrl]:
    [{ shouldIntercept, reason }]. *)
Record Decision : Type := mkDecision {
  shouldIntercept : bool;
  reason : string
}.

(** What [set] stores: [{...result, timestamp: Date.now(), url: url}]. *)
Record CacheEntry : Type := mkCacheEntry {
  entry_shouldIntercept : bool;
  entry_reason : string;
  entry_timestamp : Z;
  entry_url : string
}.

(** The decision fields of a stored entry. *)
Definition decisionOf (e : CacheEntry) : Decision :=
  {| shouldIntercept := entry_shouldIntercept e; reason := entry_reason e |}.

Module URLClassificationCache.

Record Stats : Type := mkStats {
  hits : nat;
  misses : nat;
  totalRequests : nat
}.

Record t : Type := mkCache {
  cache : JSMap.t CacheEntry;
  stats : Stats;
  maxCacheSize : nat
}.

(** The object literal of the source: an empty table, zeroed counters and
    a bound of 1000 entries. *)
Definition init : t :=
  {| cache := JSMap.empty;
     stats := {| hits := 0; misses := 0; totalRequests := 0 |};
     maxCacheSize := 1000 |}.

(** [generateCacheKey(url, data)]: the URL followed, for a non-empty
    string payload, by [_] and the rolling hash of its first 100 code
    units. *)
Definition generateCacheKey (url : string) (data : js_value) : string :=
  let dataHash :=
    match data with
    | JString s =>
        if (0 <? String.length s)%nat then
          let hash := fold_left hashStep (firstn 100 (charCodes s)) 0%Z in
          "_" ++ Number_toString hash
        else ""
    | _ => ""
    end in
  url ++ dataHash.

Definition get (url : string) (data : js_value) (c : t) : option CacheEntry * t :=
  let stats1 := {| hits := hits (stats c); misses := misses (stats c);
                   totalRequests := S (totalRequests (stats c)) |} in
  let cacheKey := generateCacheKey url data in
  if JSMap.has (cache c) cacheKey then
    let stats2 := {| hits := S (hits stats1); misses := misses stats1;
                     totalRequests := totalRequests stats1 |} in
    (JSMap.get (cache c) cacheKey,
     {| cache := cache c; stats := stats2; maxCacheSize := maxCacheSize c |})
  else
    let stats2 := {| hits := hits stats1; misses := S (misses stats1);
                     totalRequests := totalRequests stats1 |} in
    (None, {| cache := cache c; stats := stats2; maxCacheSize := maxCacheSize c |}).

Definition set (url : string) (data : js_value) (result : Decision) (now : Z) (c : t) : t :=
  let cacheKey := generateCacheKey url data in
  let cache1 :=
    if (maxCacheSize c <=? JSMap.size (cache c))%nat then
      let firstKey := JSMap.firstKey (cache c) in
      JSMap.delete (cache c) firstKey
    else cache c in
  let entry := {| entry_shouldIntercept := shouldIntercept result;
                  entry_reason := reason result;
                  entry_timestamp := now;
                  entry_url := url |} in
  {| cache := JSMap.set cache1 cacheKey entry;
     stats := stats c;
     maxCacheSize := maxCacheSize c |}.

Definition clear (c : t) : t :=
  {| cache := JSMap.empty;
     stats := {| hits := 0; misses := 0; totalRequests := 0 |};
     maxCacheSize := maxCacheSize c |}.

End URLClassificationCache.

(** ** shouldInterceptUrl (src/1.js, lines 1918-1999) *)

(** The default parameter [data = '']. *)
Definition defaultData (data : js_value) : js_value :=
  match data with
  | JUndefined => JString ""
  | _ => data
  end.

Definition shouldInterceptUrl (url data : js_value) (now : Z)
    (c : URLClassificationCache.t) : bool * URLClassificationCache.t :=
  match url with
  | JString url =>
      let data := defaultData data in
      let (cached, c) := URLClassificationCache.get url data c in
      match cached with
      | Some cached => (entry_shouldIntercept cached, c)
      | None =>
          let urlLower := toLowerCase url in
          let shouldIntercept0 := false in
          let isEssential :=
            some (fun endpoint => includes urlLower (toLowerCase endpoint))
                 ESSENTIAL_ENDPOINTS in
          if isEssential then
            let result := {| shouldIntercept := false; reason := "必要端点保护" |} in
            (false, URLClassificationCache.set url data result now c)
          else
            let '(shouldIntercept1, reason1) :=
              if INTERCEPTOR_CONFIG.enableEnhancedWhitelist then
                let isCodeIndexing :=
                  some (fun pattern => includes urlLower (toLowerCase pattern))
                       CODE_INDEXING_PATTERNS in
                if isCodeIndexing then (false, "代码索引白名单保护")
                else (shouldIntercept0, "")
              else (shouldIntercept0, "") in
            let '(shouldIntercept2, reason2) :=
              if negb shouldIntercept1 then
                let matchesInterceptPattern :=
                  some (fun pattern => includes urlLower (toLowerCase pattern))
                       INTERCEPT_PATTERNS in
                if matchesInterceptPattern then
                  let isImportant :=
                    some (fun pattern => includes urlLower pattern) importantPatterns in
                  if isImportant then (false, "重要功能URL保护")
                  else (true, "匹配拦截模式")
                else (false, "未匹配拦截模式")
              else (shouldIntercept1, reason1) in
            let result := {| shouldIntercept := shouldIntercept2; reason := reason2 |} in
            (shouldIntercept2, URLClassificationCache.set url data result now c)
      end
  | _ => (false, c)
  end.


(** ** SessionManager (src/1.js, lines 2163-2274) *)

Module SessionManager.

(** [sessionIds]; the three identifiers come from [generateUUID], which
    draws them at random, so they are part of the state. *)
Record t : Type := mkSessionIds {
  main : string;
  user : string;
  anonymous : string
}.

Definition getMainSessionId (sm : t) : string := main sm.
Definition getUserId (sm : t) : string := user sm.
Definition getAnonymousId (sm : t) : string := anonymous sm.

(** [regenerateAll], given the three fresh identifiers. *)
Definition regenerateAll (main' user' anonymous' : string) (sm : t) : t :=
  {| main := main'; user := user'; anonymous := anonymous' |}.

End SessionManager.

(** ** FeatureVectorSpoofer (src/1.js, lines 880-944 and 1280-1288) *)

Module FeatureVectorSpoofer.

(** The body of the [while (extendedHash.length < 64)] loop. *)
Definition extendStep (sessionSeed : string) (index : Z) (extendedHash : string) : string :=
  let seedChar :=
    if (String.length sessionSeed =? 0)%nat then None
    else String.get (String.length extendedHash mod String.length sessionSeed) sessionSeed in
  let indexChar :=
    String.get (String.length extendedHash mod 2) (padStart2 (Number_toString16 index)) in
  let combinedChar :=
    Number_toString16
      (Z.lxor (xorOperand (parseInt16 seedChar)) (xorOperand (parseInt16 indexChar))) in
  extendedHash ++ combinedChar.

(** The loop itself; [None] when [fuel] rounds do not reach the exit. *)
Fixpoint extendLoop (fuel : nat) (sessionSeed : string) (index : Z)
    (extendedHash : string) : option string :=
  if (String.length extendedHash <? 64)%nat then
    match fuel with
    | 0 => None
    | S fuel' => extendLoop fuel' sessionSeed index (extendStep sessionSeed index extendedHash)
    end
  else Some extendedHash.

Section Hash.
(** The seed data and the text that [JSON.stringify(data)] contributes
    to the template string. *)
Variable Data : Type.
Variable JSON_stringify : Data -> string.

(** [calculateHash(data, index)].  [SessionManager] is defined in the
    source, so the session id is always its main id. *)
Definition calculateHash (sm : SessionManager.t) (data : Data) (index : Z) : option string :=
  let saltedData := Number_toString index ++ ":" ++ JSON_stringify data in
  let hash := fold_left hashStep (charCodes saltedData) 0%Z in
  let baseHash := Number_toString16 (Z.abs hash) in
  let sessionId := SessionManager.getMainSessionId sm in
  let sessionSeed := substring0 8 (removeDashes sessionId) in
  match extendLoop 64 sessionSeed index baseHash with
  | Some extendedHash => Some (substring0 64 extendedHash)
  | None => None
  end.

(** [calculateVersionHash(data)]. *)
Definition calculateVersionHash (sm : SessionManager.t) (data : Data) : option string :=
  match calculateHash sm data 12 with
  | Some hash => Some ("v1#" ++ hash)
  | None => None
  end.
End Hash.

(** [isFeatureVectorEndpoint(url)] for a string [url]. *)
Definition isFeatureVectorEndpoint (url : string) : bool :=
  if negb INTERCEPTOR_CONFIG.enableFeatureVectorSpoofer then false
  else if (String.length url =? 0)%nat then false
  else includes (toLowerCase url) "report-feature-vector".

End FeatureVectorSpoofer.

(** ** SmartDataClassifier (src/1.js, lines 1344-1480) *)

(** JavaScript truthiness of the modelled values. *)
Definition truthy (v : js_value) : bool :=
  match v with
  | JUndefined => false
  | JString s => negb (String.length s =? 0)%nat
  | JObject _ => true
  end.

Module SmartDataClassifier.

Definition isEssentialEndpoint (context : string) : bool :=
  if (String.length context =? 0)%nat then false
  else
    let contextStr := toLowerCase context in
    some (fun endpoint => includes contextStr (toLowerCase endpoint)) ESSENTIAL_ENDPOINTS.

Definition isPreciseTelemetryEndpoint (context : string) : bool :=
  if (String.length context =? 0)%nat then false
  else
    let contextStr := toLowerCase context in
    some (fun endpoint => includes contextStr (toLowerCase endpoint))
         PRECISE_TELEMETRY_ENDPOINTS.

(** [typeof data === 'string' ? data : JSON.stringify(data)] for a truthy
    [data]. *)
Definition dataString (data : js_value) : string :=
  match data with
  | JString s => s
  | JObject json => json
  | JUndefined => ""
  end.

(** [if (matchedPattern)] on the result of [find]. *)
Definition found (matchedPattern : option string) : bool :=
  match matchedPattern with
  | Some p => negb (String.length p =? 0)%nat
  | None => false
  end.

Definition isCodeIndexingRelated (data : js_value) (context : string) : bool :=
  if negb (truthy data) then false
  else
    let dataStr := dataString data in
    let contextStr := toLowerCase context in
    found (find (fun pattern =>
                   includes (toLowerCase dataStr) (toLowerCase pattern) ||
                   includes contextStr (toLowerCase pattern))
                CODE_INDEXING_PATTERNS).

Definition isTelemetryData (data : js_value) (context : string) : bool :=
  if negb (truthy data) then false
  else
    let dataStr := dataString data in
    let contextStr := toLowerCase context in
    found (find (fun pattern =>
                   includes (toLowerCase dataStr) (toLowerCase pattern) ||
                   includes contextStr (toLowerCase pattern))
                TELEMETRY_PATTERNS).

Definition shouldInterceptUpload (data : js_value) (context : string) : bool :=
  if isEssentialEndpoint context then false
  else if isPreciseTelemetryEndpoint context then true
  else if isTelemetryData data context then true
  else if isCodeIndexingRelated data context then false
  else false.

End SmartDataClassifier.

(** ** The fetch shim (src/1.js, lines 6172-6325) *)

(** The value a fabricated response resolves [json()] to. *)
Inductive json_value : Type :=
| JsonBool (b : bool)
| JsonObject (fields : json_fields)
with json_fields : Type :=
| JsonEnd
| JsonField (key : string) (value : json_value) (rest : json_fields).

(** The fabricated response objects: [ok], [status], [statusText], the
    content type of [headers], what [json()] resolves to, and the payload
    of [text()] and [blob()]. *)
Record MockResponse : Type := mkMockResponse {
  ok : bool;
  status : Z;
  statusText : string;
  contentType : string;
  json : json_value;
  text : string
}.

Definition dq : string := String (ascii_of_nat 34) EmptyString.

(** [mockResponse] of lines 6213-6223 and 6264-6274. *)
Definition mockResponse : MockResponse :=
  {| ok := true; status := 200; statusText := "OK";
     contentType := "application/json";
     json := JsonObject JsonEnd;
     text := "{}" |}.

(** [segmentResponse] of lines 6240-6250. *)
Definition segmentResponse : MockResponse :=
  {| ok := true; status := 200; statusText := "OK";
     contentType := "application/json";
     json := JsonObject
               (JsonField "success" (JsonBool true)
               (JsonField "batch" (JsonObject (JsonField "sent" (JsonBool true) JsonEnd))
                JsonEnd));
     text := "{" ++ dq ++ "success" ++ dq ++ ": true, " ++ dq ++ "batch" ++ dq ++
             ": {" ++ dq ++ "sent" ++ dq ++ ": true}}" |}.

(** What the replaced [global.fetch] does with a call. *)
Inductive FetchOutcome : Type :=
| SpoofedFetch                      (* [originalFetch] with the body replaced by a fake feature vector *)
| Fabricated (r : MockResponse)     (* [Promise.resolve(r)]; [originalFetch] is not called *)
| OriginalFetch.                    (* [originalFetch.apply(this, arguments)] *)

(** [options.body || '']. *)
Definition bodyOrEmpty (body : js_value) : js_value :=
  if truthy body then body else JString "".

(** The body of the replaced [global.fetch] after its first two lines, for
    the address text [urlString] ([url.toString()]) and the [body] property
    of an [options] object, up to the decision between a fabricated
    response and the real call; the only state it changes is the
    classification cache. *)
Definition fetch (urlString : string) (body : js_value) (now : Z)
    (c : URLClassificationCache.t) : FetchOutcome * URLClassificationCache.t :=
  if FeatureVectorSpoofer.isFeatureVectorEndpoint urlString then (SpoofedFetch, c)
  else if SmartDataClassifier.shouldInterceptUpload (bodyOrEmpty body) urlString then
    (Fabricated mockResponse, c)
  else if includes urlString "segment.io" || includes urlString "api.segment.io" ||
          includes urlString "/v1/batch" || includes urlString "/v1/track" then
    (Fabricated segmentResponse, c)
  else
    let (intercept, c) := shouldInterceptUrl (JString urlString) (bodyOrEmpty body) now c in
    if intercept then (Fabricated mockResponse, c)
    else (OriginalFetch, c).





(** ** Reachable cache states

    The cache object is private to the script: its table is written by
    [shouldInterceptUrl] and emptied by [clear] (the [clearCache] entry of
    the configuration interface), and by nothing else. *)
Inductive reachable : URLClassificationCache.t -> Prop :=
| reachable_init : reachable URLClassificationCache.init
| reachable_intercept : forall c url data now,
    reachable c -> reachable (snd (shouldInterceptUrl url data now c))
| reachable_clear : forall c,
    reachable c -> reachable (URLClassificationCache.clear c).

(** The decision [shouldInterceptUrl] computes when the cache has no entry:
    a keyword of [INTERCEPT_PATTERNS] in the lowered address, no essential
    endpoint and no important-URL marker. *)
Definition containsAny (patterns : list string) (url : string) : bool :=
  some (fun pattern => includes (toLowerCase url) (toLowerCase pattern)) patterns.

Definition isImportantUrl (url : string) : bool :=
  some (fun pattern => includes (toLowerCase url) pattern) importantPatterns.

Definition urlDecision (url : string) : bool :=
  negb (containsAny ESSENTIAL_ENDPOINTS url) &&
  containsAny INTERCEPT_PATTERNS url &&
  negb (isImportantUrl url).

(** ** Notions used to state and prove the properties *)

(** The characters a cache key can add behind the address: [_], [-] and
    the decimal digits. *)
Definition keyTailChar (c : ascii) : bool :=
  let n := nat_of_ascii c in
  (n =? 95)%nat || (n =? 45)%nat || ((48 <=? n)%nat && (n <=? 57)%nat).

Fixpoint allKeyTail (s : string) : bool :=
  match s with
  | EmptyString => true
  | String c s' => keyTailChar c && allKeyTail s'
  end.

(** The last character of the pattern is not one of those. *)
Fixpoint endsOutsideKeyTail (p : string) : bool :=
  match p with
  | EmptyString => false
  | String c EmptyString => negb (keyTailChar c)
  | String _ p' => endsOutsideKeyTail p'
  end.

(** The part of the cache key that follows the address. *)
Definition dataHashOf (data : js_value) : string :=
  match data with
  | JString s =>
      if (0 <? String.length s)%nat then
        "_" ++ Number_toString (fold_left hashStep (firstn 100 (charCodes s)) 0%Z)
      else ""
  | _ => ""
  end.

(** Every entry of the table sits under a key of its own address and holds
    the decision of that address. *)
Definition entryConsistent (k : string) (e : CacheEntry) : Prop :=
  (exists d, k = URLClassificationCache.generateCacheKey (entry_url e) d) /\
  entry_shouldIntercept e = urlDecision (entry_url e).

Definition cacheConsistent (c : URLClassificationCache.t) : Prop :=
  forall k e, In (k, e) (URLClassificationCache.cache c) -> entryConsistent k e.

(** One call [URLClassificationCache.set(url, data, result)], with the
    value [Date.now()] has at the call. *)
Record SetCall : Type := mkSetCall {
  set_url : string;
  set_data : js_value;
  set_result : Decision;
  set_now : Z
}.

Definition applySet (c : URLClassificationCache.t) (op : SetCall) : URLClassificationCache.t :=
  URLClassificationCache.set (set_url op) (set_data op) (set_result op) (set_now op) c.

(** A sequence of [set] calls, earliest first. *)
Definition applySets (ops : list SetCall) (c : URLClassificationCache.t) : URLClassificationCache.t :=
  fold_left applySet ops c.

Definition keyOf (op : SetCall) : string :=
  URLClassificationCache.generateCacheKey (set_url op) (set_data op).

Definition entryOf (op : SetCall) : CacheEntry :=
  {| entry_shouldIntercept := shouldIntercept (set_result op);
     entry_reason := reason (set_result op);
     entry_timestamp := set_now op;
     entry_url := set_url op |}.

(** The digits [n.toString(16)] writes: [0-9] and [a-f]. *)
Definition isHexDigit (c : ascii) : bool :=
  let n := nat_of_ascii c in
  ((48 <=? n)%nat && (n <=? 57)%nat) || ((97 <=? n)%nat && (n <=? 102)%nat).

Fixpoint allHex (s : string) : bool :=
  match s with
  | EmptyString => true
  | String c s' => isHexDigit c && allHex s'
  end.

(** [JSON.stringify] of a string without characters that need escaping:
    the string between double quotes. *)
Definition quoted (s : string) : string := dq ++ s ++ dq.

(** ** Further notions for the decision cache *)

(** The latest of the calls [ops] that wrote under the cache key [key]. *)
Definition lastWithKey (key : string) (ops : list SetCall) : option SetCall :=
  find (fun op => String.eqb (keyOf op) key) (rev ops).

(** ** Session identifiers (src/1.js, lines 1895-1910 and 2006-2017) *)

(** A value of [Math.random()]: a double in [0, 1).  Every such double is
    a dyadic rational [numerator / 2 ^ exponent] with
    [numerator < 2 ^ exponent]. *)
Record RandomDouble : Type := mkRandomDouble {
  numerator : N;
  exponent : N
}.

Definition inUnitInterval (r : RandomDouble) : Prop :=
  (numerator r < 2 ^ exponent r)%N.

(** [Math.floor(r * n)] for a power of two [n], for which the product is
    exact. *)
Definition floorTimes (r : RandomDouble) (n : N) : N :=
  (numerator r * n / 2 ^ exponent r)%N.

(** [chars[i]] appended to a string; an index outside the string gives
    [undefined], which appends as text. *)
Definition charsAt (chars : string) (i : N) : string :=
  match String.get (N.to_nat i) chars with
  | Some c => String c EmptyString
  | None => "undefined"
  end.

(** One round of the loop of [generateUUID]; [k] counts the values of
    [Math.random()] drawn so far from the sequence [rnd]. *)
Definition generateUUID_step (rnd : nat -> RandomDouble) (st : string * nat) (i : nat)
    : string * nat :=
  let chars := "0123456789abcdef" in
  let '(result, k) := st in
  if (i =? 8)%nat || (i =? 13)%nat || (i =? 18)%nat || (i =? 23)%nat then
    (result ++ "-", k)
  else if (i =? 14)%nat then
    (result ++ "4", k)
  else if (i =? 19)%nat then
    (result ++ charsAt chars (8 + floorTimes (rnd k) 4), S k)
  else
    (result ++ charsAt chars (floorTimes (rnd k) 16), S k).

(** [generateUUID()]: the identifier and the number of draws used up. *)
Definition generateUUID (rnd : nat -> RandomDouble) (k : nat) : string * nat :=
  fold_left (generateUUID_step rnd) (seq 0 36) ("", k).

(** The character classes of the two regular expressions of
    [isSessionId]. *)
Inductive CharClass : Type :=
| HexDigitCI     (* [0-9a-f] under the flag i *)
| Dash.          (* - *)

Definition isHexDigitCI (c : ascii) : bool :=
  let n := nat_of_ascii c in
  ((48 <=? n)%nat && (n <=? 57)%nat) || ((97 <=? n)%nat && (n <=? 102)%nat) ||
  ((65 <=? n)%nat && (n <=? 70)%nat).

(** [a-zA-Z0-9_-] *)
Definition isIdChar (c : ascii) : bool :=
  let n := nat_of_ascii c in
  ((97 <=? n)%nat && (n <=? 122)%nat) || ((65 <=? n)%nat && (n <=? 90)%nat) ||
  ((48 <=? n)%nat && (n <=? 57)%nat) || (n =? 95)%nat || (n =? 45)%nat.

Definition inClass (cl : CharClass) (c : ascii) : bool :=
  match cl with
  | HexDigitCI => isHexDigitCI c
  | Dash => Ascii.eqb c "-"
  end.

(** A regular expression [^c1 c2 ... cn$] made of one class per
    character. *)
Fixpoint matchClasses (cls : list CharClass) (s : string) : bool :=
  match cls, s with
  | [], EmptyString => true
  | cl :: cls', String c s' => inClass cl c && matchClasses cls' s'
  | _, _ => false
  end.

(** [/^[0-9a-f]{8}-[0-9a-f]{4}-[0-9a-f]{4}-[0-9a-f]{4}-[0-9a-f]{12}$/i] *)
Definition uuidPattern : list CharClass :=
  (repeat HexDigitCI 8 ++ [Dash] ++ repeat HexDigitCI 4 ++ [Dash] ++
   repeat HexDigitCI 4 ++ [Dash] ++ repeat HexDigitCI 4 ++ [Dash] ++
   repeat HexDigitCI 12)%list.

Fixpoint allIdChars (s : string) : bool :=
  match s with
  | EmptyString => true
  | String c s' => isIdChar c && allIdChars s'
  end.

(** [/^[a-zA-Z0-9_-]+$/] *)
Definition idTokenPattern (s : string) : bool :=
  negb (String.length s =? 0)%nat && allIdChars s.

Definition isSessionId (value : js_value) : bool :=
  match value with
  | JString value =>
      if matchClasses uuidPattern value then true
      else if (16 <=? String.length value)%nat && idTokenPattern value then true
      else false
  | _ => false
  end.

(** [XMLHttpRequest.prototype.setRequestHeader] as replaced at lines
    6472-6484: the name and value handed to the original method. *)
Definition xhrSetRequestHeader (sm : SessionManager.t) (name : string) (value : js_value)
    : string * js_value :=
  if String.eqb (toLowerCase name) "x-request-session-id" && isSessionId value then
    let newSessionId := SessionManager.getMainSessionId sm in
    (name, JString newSessionId)
  else (name, value).

(** The sixteen values of [chars[i]] in [generateUUID]. *)
Definition hexChar (i : N) : ascii :=
  match String.get (N.to_nat i) "0123456789abcdef" with
  | Some c => c
  | None => "0"%char
  end.

(** The text [generateUUID] builds from thirty random hexadecimal digits
    [h 0], ..., [h 30] (without [h 15]) and the variant digit [v]. *)
Definition uuidText (h : nat -> ascii) (v : ascii) : string :=
  String (h 0) (String (h 1) (String (h 2) (String (h 3) (String (h 4) (String (h 5)
  (String (h 6) (String (h 7) (String "-" (String (h 8) (String (h 9) (String (h 10)
  (String (h 11) (String "-" (String "4" (String (h 12) (String (h 13) (String (h 14)
  (String "-" (String v (String (h 16) (String (h 17) (String (h 18) (String "-"
  (String (h 19) (String (h 20) (String (h 21) (String (h 22) (String (h 23) (String (h 24)
  (String (h 25) (String (h 26) (String (h 27) (String (h 28) (String (h 29) (String (h 30)
   EmptyString))))))))))))))))))))))))))))))))))).

(** ** Further notions for the hash synthesizer *)

(** The digit the loop of [calculateHash] writes at position [p]: it is
    computed from the session seed, the index and the position only. *)
Definition extensionDigit (sessionSeed : string) (index : Z) (p : nat) : string :=
  let seedChar :=
    if (String.length sessionSeed =? 0)%nat then None
    else String.get (p mod String.length sessionSeed) sessionSeed in
  let indexChar := String.get (p mod 2) (padStart2 (Number_toString16 index)) in
  Number_toString16
    (Z.lxor (xorOperand (parseInt16 seedChar)) (xorOperand (parseInt16 indexChar))).

(** The digits written at the positions [p], [p + 1], ..., [p + n - 1]. *)
Fixpoint extensionDigits (sessionSeed : string) (index : Z) (p n : nat) : string :=
  match n with
  | 0 => EmptyString
  | S n' => extensionDigit sessionSeed index p ++ extensionDigits sessionSeed index (S p) n'
  end.

(** The hexadecimal digit of a value below 16, in front of a numeral. *)
Definition hexDigitCons (x : N) (d : Hexadecimal.uint) : Hexadecimal.uint :=
  match x with
  | 0%N => Hexadecimal.D0 d | 1%N => Hexadecimal.D1 d | 2%N => Hexadecimal.D2 d
  | 3%N => Hexadecimal.D3 d | 4%N => Hexadecimal.D4 d | 5%N => Hexadecimal.D5 d
  | 6%N => Hexadecimal.D6 d | 7%N => Hexadecimal.D7 d | 8%N => Hexadecimal.D8 d
  | 9%N => Hexadecimal.D9 d | 10%N => Hexadecimal.Da d | 11%N => Hexadecimal.Db d
  | 12%N => Hexadecimal.Dc d | 13%N => Hexadecimal.Dd d | 14%N => Hexadecimal.De d
  | _ => Hexadecimal.Df d
  end.

(** The [k] lowest hexadecimal digits of [n], lowest first. *)
Fixpoint littleHex (k : nat) (n : N) : Hexadecimal.uint :=
  match k with
  | 0 => Hexadecimal.Nil
  | S k' => hexDigitCons (n mod 16) (littleHex k' (n / 16))
  end.

(** ** The other transports (src/1.js, lines 6341-6470, 6505-6628 and 6655-6698) *)

(** The text of the Segment acknowledgement, as the XMLHttpRequest shim
    writes it into [responseText]. *)
Definition segmentText : string :=
  "{" ++ dq ++ "success" ++ dq ++ ": true, " ++ dq ++ "batch" ++ dq ++
  ": {" ++ dq ++ "sent" ++ dq ++ ": true}}".

(** What the replaced [XMLHttpRequest.prototype.open] does. *)
Inductive XhrOutcome : Type :=
| XhrSpoofedOpen                       (* [originalOpen]; [send] replaces the body by a fake feature vector *)
| XhrFabricated (responseText : string) (* [originalOpen] is not called; [send] reports status 200 and this text *)
| XhrOriginalOpen.                     (* [originalOpen.apply(this, arguments)] *)

(** The replaced [open(method, url, ...)] for an address given as text. *)
Definition xhrOpen (url : string) (now : Z) (c : URLClassificationCache.t)
    : XhrOutcome * URLClassificationCache.t :=
  if FeatureVectorSpoofer.isFeatureVectorEndpoint url then (XhrSpoofedOpen, c)
  else if SmartDataClassifier.shouldInterceptUpload (JString "") url then
    (XhrFabricated "{}", c)
  else if includes url "segment.io" || includes url "/v1/batch" then
    (XhrFabricated segmentText, c)
  else
    let (intercept, c) := shouldInterceptUrl (JString url) JUndefined now c in
    if intercept then (XhrFabricated "{}", c)
    else (XhrOriginalOpen, c).

(** The response the adapter installed by the Axios interceptor resolves
    to. *)
Record AxiosResponse : Type := mkAxiosResponse {
  axios_data : json_value;
  axios_status : Z;
  axios_statusText : string;
  axios_contentType : string
}.

Inductive AxiosOutcome : Type :=
| AxiosSpoofed                      (* the configuration goes on with [data] replaced by a fake feature vector *)
| AxiosAdapter (r : AxiosResponse)  (* the configuration gets an adapter that resolves to [r] *)
| AxiosPass.                        (* the configuration goes on, its session header replaced where it holds a session id *)

(** The request interceptor registered on Axios, for [config.url] given as
    text ([None] when absent) and [config.data]. *)
Definition axiosRequest (configUrl : option string) (data : js_value) (now : Z)
    (c : URLClassificationCache.t) : AxiosOutcome * URLClassificationCache.t :=
  let url := match configUrl with Some u => u | None => "" end in
  if FeatureVectorSpoofer.isFeatureVectorEndpoint url then (AxiosSpoofed, c)
  else if SmartDataClassifier.shouldInterceptUpload (bodyOrEmpty data) url then
    (AxiosAdapter {| axios_data := JsonObject JsonEnd; axios_status := 200;
                     axios_statusText := "OK"; axios_contentType := "application/json" |}, c)
  else if includes url "segment.io" || includes url "/v1/batch" then
    (AxiosAdapter {| axios_data := JsonObject
                       (JsonField "success" (JsonBool true)
                       (JsonField "batch" (JsonObject (JsonField "sent" (JsonBool true) JsonEnd))
                        JsonEnd));
                     axios_status := 200;
                     axios_statusText := "OK"; axios_contentType := "application/json" |}, c)
  else
    let (intercept, c) := shouldInterceptUrl (JString url) JUndefined now c in
    if intercept then
      (AxiosAdapter {| axios_data := JsonObject JsonEnd; axios_status := 200;
                       axios_statusText := "OK"; axios_contentType := "application/json" |}, c)
    else (AxiosPass, c).

(** The [port] option: absent or falsy, a number, or a text. *)
Inductive PortOption : Type :=
| PortAbsent
| PortNumber (n : N)
| PortText (s : string).

(** The options object of [http.request], as far as [buildUrlFromOptions]
    reads it; [None] is an absent field. *)
Record RequestOptions : Type := mkRequestOptions {
  opt_protocol : option string;
  opt_hostname : option string;
  opt_host : option string;
  opt_port : PortOption;
  opt_path : option string
}.

Inductive HttpOptions : Type :=
| HttpUrlText (s : string)             (* a string *)
| HttpNoOptions                        (* [null], [undefined] or another falsy value *)
| HttpOptionsObject (o : RequestOptions).

(** [field || fallback] for an optional text field. *)
Definition orDefault (field : option string) (fallback : string) : string :=
  match field with
  | Some s => if (String.length s =? 0)%nat then fallback else s
  | None => fallback
  end.

(** [options.port ? `:${options.port}` : ''] *)
Definition portSuffix (port : PortOption) : string :=
  match port with
  | PortAbsent => ""
  | PortNumber n => if (n =? 0)%N then "" else ":" ++ Number_toString (Z.of_N n)
  | PortText s => if (String.length s =? 0)%nat then "" else ":" ++ s
  end.

Definition buildUrlFromOptions (options : HttpOptions) : string :=
  match options with
  | HttpUrlText s => s
  | HttpNoOptions => ""
  | HttpOptionsObject options =>
      let protocol := orDefault (opt_protocol options) "http:" in
      let hostname :=
        orDefault (opt_hostname options) (orDefault (opt_host options) "localhost") in
      let port := portSuffix (opt_port options) in
      let path := orDefault (opt_path options) "/" in
      protocol ++ "//" ++ hostname ++ port ++ path
  end.

Inductive HttpOutcome : Type :=
| HttpMock          (* [createMockResponse(callback)]; no request is made *)
| HttpOriginal.     (* [originalHttpRequest.apply(this, arguments)] *)

(** The replaced [http.request] and [https.request]. *)
Definition httpRequest (options : HttpOptions) (now : Z) (c : URLClassificationCache.t)
    : HttpOutcome * URLClassificationCache.t :=
  let url := buildUrlFromOptions options in
  let (intercept, c) := shouldInterceptUrl (JString url) JUndefined now c in
  if intercept then (HttpMock, c) else (HttpOriginal, c).

(** What a transport does with a request, for comparing the transports. *)
Inductive Verdict : Type :=
| Substitute      (* sent on with a fake feature vector *)
| BlockEmpty      (* answered with the empty object *)
| BlockSegment    (* answered with the Segment acknowledgement *)
| Forward.        (* sent on *)

Definition fetchVerdict (o : FetchOutcome) : Verdict :=
  match o with
  | SpoofedFetch => Substitute
  | Fabricated r => if String.eqb (text r) "{}" then BlockEmpty else BlockSegment
  | OriginalFetch => Forward
  end.

Definition xhrVerdict (o : XhrOutcome) : Verdict :=
  match o with
  | XhrSpoofedOpen => Substitute
  | XhrFabricated t => if String.eqb t "{}" then BlockEmpty else BlockSegment
  | XhrOriginalOpen => Forward
  end.

Definition axiosVerdict (o : AxiosOutcome) : Verdict :=
  match o with
  | AxiosSpoofed => Substitute
  | AxiosAdapter r =>
      match axios_data r with
      | JsonObject JsonEnd => BlockEmpty
      | _ => BlockSegment
      end
  | AxiosPass => Forward
  end.

(** ** The session identifiers and the fake-data cache (src/1.js, lines 2163-2169 and 884-895) *)

(** The object literal [sessionIds] of [SessionManager]: three calls of
    [generateUUID], in the order of the fields; [k] counts the values of
    [Math.random()] drawn so far. *)
Definition sessionIds (rnd : nat -> RandomDouble) (k : nat) : SessionManager.t * nat :=
  let (main, k) := generateUUID rnd k in
  let (user, k) := generateUUID rnd k in
  let (anonymous, k) := generateUUID rnd k in
  ({| SessionManager.main := main; SessionManager.user := user;
      SessionManager.anonymous := anonymous |}, k).

Section FakeData.
(** Whatever a generator may read or change: the random source, the
    clock, the process environment. *)
Variable World : Type.

End FakeData.

(** ** The feature vector (src/1.js, lines 1183-1273) *)

Section FeatureVector.
Variable Data : Type.
Variable JSON_stringify : Data -> string.

(** The entry the loop of [generateCompleteFeatureVector] writes at index
    [i], for the value [fakeData] that the generator of [i] returned.  The
    table of generators has an entry for every index from 0 to 41, so the
    branch for a missing generator is never taken. *)
Definition featureVectorEntry (sm : SessionManager.t) (fakeData : Data) (i : nat)
    : option string :=
  if (i =? 12)%nat then FeatureVectorSpoofer.calculateVersionHash Data JSON_stringify sm fakeData
  else FeatureVectorSpoofer.calculateHash Data JSON_stringify sm fakeData (Z.of_nat i).

(** The rounds [i], [i + 1], ..., [i + n - 1] of the loop. *)
Fixpoint featureVectorLoop (sm : SessionManager.t) (fakeData : nat -> Data) (i n : nat)
    : option (list (nat * string)) :=
  match n with
  | 0 => Some []
  | S n' =>
      match featureVectorEntry sm (fakeData i) i with
      | Some h =>
          match featureVectorLoop sm fakeData (S i) n' with
          | Some rest => Some ((i, h) :: rest)
          | None => None
          end
      | None => None
      end
  end.

(** [generateCompleteFeatureVector()]: the [feature_vector] object, as
    the list of its indices and entries. *)
Definition generateCompleteFeatureVector (sm : SessionManager.t) (fakeData : nat -> Data)
    : option (list (nat * string)) :=
  featureVectorLoop sm fakeData 0 42.
End FeatureVector.

(** ** Evaluating the embedding *)

Example shouldInterceptUrl_precise_scenario :
  fst (shouldInterceptUrl (JString "https://telemetry.example.com/analytics") JUndefined 0
         URLClassificationCache.init) = true.
Proof. reflexivity. Qed.

(** The second call with the same address and payload is a cache hit. *)
Example shouldInterceptUrl_second_call_hits :
  let c1 := snd (shouldInterceptUrl (JString "https://telemetry.example.com/analytics")
                   (JString "a=1") 0 URLClassificationCache.init) in
  let r2 := shouldInterceptUrl (JString "https://telemetry.example.com/analytics")
              (JString "a=1") 1 c1 in
  fst r2 = true /\
  URLClassificationCache.hits (URLClassificationCache.stats (snd r2)) = 1 /\
  URLClassificationCache.misses (URLClassificationCache.stats (snd r2)) = 1 /\
  JSMap.size (URLClassificationCache.cache (snd r2)) = 1.
Proof. vm_compute. repeat split; reflexivity. Qed.

Example shouldInterceptUrl_unknown_endpoint :
  fst (shouldInterceptUrl (JString "https://example.com/unknown-endpoint") JUndefined 0
         URLClassificationCache.init) = false.
Proof. reflexivity. Qed.

Example shouldInterceptUrl_client_metrics :
  fst (shouldInterceptUrl (JString "https://api.example.com/client-metrics") JUndefined 0
         URLClassificationCache.init) = false.
Proof. reflexivity. Qed.

Example shouldInterceptUrl_non_string :
  shouldInterceptUrl (JObject "{}") JUndefined 0 URLClassificationCache.init =
  (false, URLClassificationCache.init).
Proof. reflexivity. Qed.

Example generateCacheKey_digest :
  URLClassificationCache.generateCacheKey "https://a/b" (JString "hello world") =
  "https://a/b_1794106052".
Proof. reflexivity. Qed.

Example hashStep_wraps : fold_left hashStep (charCodes "zzzzzzzz") 0%Z = (-1910022912)%Z.
Proof. reflexivity. Qed.

Example calculateHash_sample :
  FeatureVectorSpoofer.calculateHash string (fun s => s)
    {| SessionManager.main := "3f2a9c1e-1b2c-4d3e-8f4a-5b6c7d8e9f0a";
       SessionManager.user := ""; SessionManager.anonymous := "" |} "abc" 12 =
  Some "5679e38933269012332690123326901233269012332690123326901233269012".
Proof. reflexivity. Qed.

(** ** Strings: prefixes, occurrences and lowering *)

Lemma string_app_length (a b : string) :
  String.length (a ++ b) = String.length a + String.length b.
Proof. induction a as [|c a IH]; simpl; [reflexivity | now rewrite IH]. Qed.

Lemma string_app_assoc (a b c : string) : (a ++ b) ++ c = a ++ (b ++ c).
Proof. induction a as [|x a IH]; simpl; [reflexivity | now rewrite IH]. Qed.

Lemma string_app_nil_r (a : string) : a ++ "" = a.
Proof. induction a as [|x a IH]; simpl; [reflexivity | now rewrite IH]. Qed.

Lemma toLowerCase_app (a b : string) :
  toLowerCase (a ++ b) = toLowerCase a ++ toLowerCase b.
Proof. induction a as [|x a IH]; simpl; [reflexivity | now rewrite IH]. Qed.

Lemma prefix_empty (s : string) : String.prefix "" s = true.
Proof. destruct s; reflexivity. Qed.

(** Two ways of splitting one string differ by a middle part. *)
Lemma string_app_eq_app (a b c d : string) :
  a ++ b = c ++ d ->
  exists t, (a = c ++ t /\ d = t ++ b) \/ (c = a ++ t /\ b = t ++ d).
Proof.
  revert c; induction a as [|x a IH]; intros c H.
  - exists c. right. simpl in *. split; [reflexivity | exact H].
  - destruct c as [|y c].
    + exists (String x a). left. simpl in *. split; [reflexivity | now symmetry].
    + simpl in H. injection H as Hxy Hrest. subst y.
      destruct (IH c Hrest) as [t [[H1 H2] | [H1 H2]]]; exists t; [left | right];
        simpl; subst; split; reflexivity.
Qed.

Lemma allKeyTail_app (a b : string) :
  allKeyTail (a ++ b) = allKeyTail a && allKeyTail b.
Proof.
  induction a as [|x a IH]; simpl; [reflexivity |].
  rewrite IH. now rewrite andb_assoc.
Qed.

Lemma allKeyTail_not_endsOutside (p : string) :
  allKeyTail p = true -> endsOutsideKeyTail p = false.
Proof.
  induction p as [|c p IH]; simpl; intros H; [reflexivity |].
  apply andb_prop in H as [Hc Hp].
  destruct p as [|c' p']; [now rewrite Hc | now apply IH].
Qed.

Lemma prefix_allKeyTail (p t : string) :
  String.prefix p t = true -> allKeyTail t = true -> allKeyTail p = true.
Proof.
  revert t; induction p as [|c p IH]; intros t Hp Ht; [reflexivity |].
  destruct t as [|c' t]; simpl in Hp; [discriminate |].
  destruct (ascii_dec c c') as [->|]; [| discriminate].
  simpl in *. apply andb_prop in Ht as [Hc Ht].
  rewrite Hc. simpl. now apply (IH t).
Qed.

Lemma prefix_app_keyTail (p u t : string) :
  endsOutsideKeyTail p = true -> allKeyTail t = true ->
  String.prefix p (u ++ t) = String.prefix p u.
Proof.
  revert p; induction u as [|c u IH]; intros p Hp Ht.
  - simpl. destruct p as [|a p]; [discriminate |].
    destruct (String.prefix (String a p) t) eqn:E.
    + apply prefix_allKeyTail in E; [| exact Ht].
      apply allKeyTail_not_endsOutside in E. congruence.
    + reflexivity.
  - destruct p as [|a p]; [discriminate |].
    simpl. destruct (ascii_dec a c); [| reflexivity].
    destruct p as [|a' p']; [now rewrite !prefix_empty |].
    apply IH; [exact Hp | exact Ht].
Qed.

Lemma includes_keyTail_false (p t : string) :
  endsOutsideKeyTail p = true -> allKeyTail t = true -> includes t p = false.
Proof.
  intros Hp. induction t as [|c t IH]; intros Ht.
  - simpl. destruct p; [discriminate | reflexivity].
  - assert (Hpre : String.prefix p (String c t) = false).
    { destruct (String.prefix p (String c t)) eqn:E; [| reflexivity].
      apply prefix_allKeyTail in E; [| exact Ht].
      apply allKeyTail_not_endsOutside in E. congruence. }
    simpl in Ht. apply andb_prop in Ht as [_ Ht].
    change (includes (String c t) p) with (String.prefix p (String c t) || includes t p).
    rewrite Hpre, (IH Ht). reflexivity.
Qed.

(** An occurrence of such a pattern never reaches into the key tail. *)
Lemma includes_app_keyTail (p u t : string) :
  endsOutsideKeyTail p = true -> allKeyTail t = true ->
  includes (u ++ t) p = includes u p.
Proof.
  intros Hp Ht. induction u as [|c u IH].
  - simpl (_ ++ _). rewrite (includes_keyTail_false p t Hp Ht).
    simpl. destruct p; [discriminate | reflexivity].
  - change (includes (String c u ++ t) p)
      with (String.prefix p (String c u ++ t) || includes (u ++ t) p).
    change (includes (String c u) p) with (String.prefix p (String c u) || includes u p).
    rewrite (prefix_app_keyTail p (String c u) t Hp Ht), IH. reflexivity.
Qed.

Lemma lower_ascii_keyTail (c : ascii) : keyTailChar c = true -> lower_ascii c = c.
Proof.
  unfold keyTailChar, lower_ascii. intros H.
  destruct ((65 <=? nat_of_ascii c)%nat && (nat_of_ascii c <=? 90)%nat) eqn:E; [| reflexivity].
  apply andb_prop in E as [E1 E2].
  apply Nat.leb_le in E1, E2.
  repeat (apply orb_prop in H as [H | H]).
  - apply Nat.eqb_eq in H. lia.
  - apply Nat.eqb_eq in H. lia.
  - apply andb_prop in H as [H1 H2]. apply Nat.leb_le in H1, H2. lia.
Qed.

Lemma toLowerCase_keyTail (t : string) : allKeyTail t = true -> toLowerCase t = t.
Proof.
  induction t as [|c t IH]; simpl; intros H; [reflexivity |].
  apply andb_prop in H as [Hc Ht].
  now rewrite (lower_ascii_keyTail c Hc), (IH Ht).
Qed.

(** ** Cache keys *)

Lemma generateCacheKey_eq (url : string) (data : js_value) :
  URLClassificationCache.generateCacheKey url data = url ++ dataHashOf data.
Proof. destruct data; reflexivity. Qed.

Lemma decimal_uint_keyTail (d : Decimal.uint) :
  allKeyTail (DecimalString.NilEmpty.string_of_uint d) = true.
Proof. induction d; simpl; auto. Qed.

Lemma Number_toString_keyTail (z : Z) : allKeyTail (Number_toString z) = true.
Proof.
  unfold Number_toString.
  destruct (Z.to_int z) as [d | d]; simpl.
  - destruct d; try reflexivity; apply (decimal_uint_keyTail (_ _)).
  - destruct d; try reflexivity; apply (decimal_uint_keyTail (_ _)).
Qed.

Lemma dataHashOf_keyTail (data : js_value) : allKeyTail (dataHashOf data) = true.
Proof.
  destruct data as [| s |]; simpl; try reflexivity.
  destruct (0 <? String.length s)%nat; [| reflexivity].
  simpl. apply Number_toString_keyTail.
Qed.

Lemma containsAny_app_keyTail (patterns : list string) (u t : string) :
  forallb (fun p => endsOutsideKeyTail (toLowerCase p)) patterns = true ->
  allKeyTail t = true ->
  containsAny patterns (u ++ t) = containsAny patterns u.
Proof.
  intros Hall Ht. unfold containsAny, some.
  induction patterns as [|p ps IH]; [reflexivity |].
  simpl in Hall. apply andb_prop in Hall as [Hp Hps].
  simpl. rewrite (IH Hps). f_equal.
  rewrite toLowerCase_app, (toLowerCase_keyTail t Ht).
  now apply includes_app_keyTail.
Qed.

Lemma isImportantUrl_app_keyTail (u t : string) :
  allKeyTail t = true -> isImportantUrl (u ++ t) = isImportantUrl u.
Proof.
  intros Ht. unfold isImportantUrl, some.
  assert (Hall : forallb endsOutsideKeyTail importantPatterns = true) by reflexivity.
  induction importantPatterns as [|p ps IH]; [reflexivity |].
  simpl in Hall. apply andb_prop in Hall as [Hp Hps].
  simpl. rewrite (IH Hps). f_equal.
  rewrite toLowerCase_app, (toLowerCase_keyTail t Ht).
  now apply includes_app_keyTail.
Qed.

Lemma urlDecision_app_keyTail (u t : string) :
  allKeyTail t = true -> urlDecision (u ++ t) = urlDecision u.
Proof.
  intros Ht. unfold urlDecision.
  rewrite (containsAny_app_keyTail ESSENTIAL_ENDPOINTS u t), 
          (containsAny_app_keyTail INTERCEPT_PATTERNS u t),
          (isImportantUrl_app_keyTail u t); auto.
Qed.

(** Two requests that share a cache key have the same decision: the keys
    can only collide when one address is the other followed by a piece of a
    data digest, and no pattern of the tables ends inside such a piece. *)
Lemma sameKey_sameDecision (u1 u2 : string) (d1 d2 : js_value) :
  URLClassificationCache.generateCacheKey u1 d1 =
  URLClassificationCache.generateCacheKey u2 d2 ->
  urlDecision u1 = urlDecision u2.
Proof.
  rewrite !generateCacheKey_eq. intros H.
  destruct (string_app_eq_app _ _ _ _ H) as [t [[H1 H2] | [H1 H2]]].
  - subst u1. apply urlDecision_app_keyTail.
    pose proof (dataHashOf_keyTail d2) as Hd. rewrite H2, allKeyTail_app in Hd.
    now apply andb_prop in Hd as [Hd _].
  - subst u2. symmetry. apply urlDecision_app_keyTail.
    pose proof (dataHashOf_keyTail d1) as Hd. rewrite H2, allKeyTail_app in Hd.
    now apply andb_prop in Hd as [Hd _].
Qed.

(** ** The insertion-ordered map *)

Section JSMapFacts.
Context {V : Type}.
Implicit Types (m : JSMap.t V) (k : string) (v : V).

Lemma JSMap_get_In m k v : JSMap.get m k = Some v -> In (k, v) m.
Proof.
  induction m as [|[k' v'] m IH]; simpl; [discriminate |].
  destruct (String.eqb k' k) eqn:E.
  - apply String.eqb_eq in E. intros [= ->]. left. now subst.
  - intros H. right. now apply IH.
Qed.

Lemma JSMap_remove_In m k x : In x (JSMap.remove m k) -> In x m.
Proof.
  induction m as [|[k' v'] m IH]; simpl; [tauto |].
  destruct (String.eqb k' k); simpl; intuition.
Qed.

Lemma JSMap_delete_In m (k : option string) x : In x (JSMap.delete m k) -> In x m.
Proof. destruct k; simpl; [apply JSMap_remove_In | tauto]. Qed.

Lemma JSMap_set_In m k v x : In x (JSMap.set m k v) -> x = (k, v) \/ In x m.
Proof.
  induction m as [|[k' v'] m IH]; simpl.
  - intros [<- | []]. now left.
  - destruct (String.eqb k' k) eqn:E; simpl.
    + apply String.eqb_eq in E. subst k'. intros [<- | H]; [now left | right; now right].
    + intros [<- | H]; [right; now left |].
      destruct (IH H) as [-> | H']; [now left | right; now right].
Qed.

Lemma JSMap_get_set_same m k v : JSMap.get (JSMap.set m k v) k = Some v.
Proof.
  induction m as [|[k' v'] m IH]; simpl.
  - now rewrite String.eqb_refl.
  - destruct (String.eqb k' k) eqn:E; simpl; rewrite E; [reflexivity | exact IH].
Qed.

Lemma JSMap_has_set_same m k v : JSMap.has (JSMap.set m k v) k = true.
Proof. unfold JSMap.has. now rewrite JSMap_get_set_same. Qed.
End JSMapFacts.

(** ** The classification cache is consistent in every reachable state *)

Lemma set_consistent url data result now c :
  cacheConsistent c ->
  shouldIntercept result = urlDecision url ->
  cacheConsistent (URLClassificationCache.set url data result now c).
Proof.
  intros Hc Hres k e Hin. unfold URLClassificationCache.set in Hin. simpl in Hin.
  apply JSMap_set_In in Hin as [Heq | Hin].
  - injection Heq as -> ->. split; simpl; [now exists data | exact Hres].
  - apply Hc. destruct (_ <=? _)%nat; [now apply JSMap_delete_In in Hin | exact Hin].
Qed.

Lemma get_cache url data c :
  URLClassificationCache.cache (snd (URLClassificationCache.get url data c)) =
  URLClassificationCache.cache c.
Proof. unfold URLClassificationCache.get. now destruct (JSMap.has _ _). Qed.

Lemma get_result url data c :
  fst (URLClassificationCache.get url data c) =
  JSMap.get (URLClassificationCache.cache c) (URLClassificationCache.generateCacheKey url data).
Proof.
  unfold URLClassificationCache.get, JSMap.has.
  now destruct (JSMap.get _ _) eqn:E.
Qed.

Lemma get_consistent url data c :
  cacheConsistent c -> cacheConsistent (snd (URLClassificationCache.get url data c)).
Proof. intros Hc k e. rewrite get_cache. apply Hc. Qed.

(** What [shouldInterceptUrl] computes when the cache has no entry. *)
Lemma shouldInterceptUrl_cases (url : string) (data : js_value) (now : Z)
    (c : URLClassificationCache.t) :
  let c1 := snd (URLClassificationCache.get url (defaultData data) c) in
  shouldInterceptUrl (JString url) data now c =
  match fst (URLClassificationCache.get url (defaultData data) c) with
  | Some cached => (entry_shouldIntercept cached, c1)
  | None =>
      (urlDecision url,
       URLClassificationCache.set url (defaultData data)
         {| shouldIntercept := urlDecision url;
            reason := if containsAny ESSENTIAL_ENDPOINTS url then "必要端点保护"
                      else if containsAny INTERCEPT_PATTERNS url then
                             if isImportantUrl url then "重要功能URL保护" else "匹配拦截模式"
                           else "未匹配拦截模式" |} now c1)
  end.
Proof.
  intros c1. unfold shouldInterceptUrl. subst c1.
  destruct (URLClassificationCache.get url (defaultData data) c) as [cached c'].
  simpl fst; simpl snd.
  destruct cached as [cached|]; [reflexivity |].
  unfold urlDecision, containsAny, isImportantUrl.
  cbv [INTERCEPTOR_CONFIG.enableEnhancedWhitelist].
  destruct (some _ ESSENTIAL_ENDPOINTS); [reflexivity |].
  destruct (some _ CODE_INDEXING_PATTERNS);
    destruct (some _ INTERCEPT_PATTERNS); try reflexivity;
    destruct (some _ importantPatterns); reflexivity.
Qed.

Lemma shouldInterceptUrl_consistent url data now c :
  cacheConsistent c ->
  fst (shouldInterceptUrl url data now c) =
    match url with JString u => urlDecision u | _ => false end /\
  cacheConsistent (snd (shouldInterceptUrl url data now c)).
Proof.
  intros Hc. destruct url as [| url |]; try (split; [reflexivity | exact Hc]).
  rewrite shouldInterceptUrl_cases.
  pose proof (get_result url (defaultData data) c) as Hres.
  pose proof (get_consistent url (defaultData data) c Hc) as Hc1.
  destruct (fst (URLClassificationCache.get url (defaultData data) c)) as [e|]; simpl.
  - split; [| exact Hc1].
    symmetry in Hres. apply JSMap_get_In in Hres.
    destruct (Hc _ _ Hres) as [[d Hk] Hd].
    rewrite Hd. symmetry. exact (sameKey_sameDecision _ _ _ _ Hk).
  - split; [reflexivity |]. now apply set_consistent.
Qed.

Lemma clear_consistent c : cacheConsistent (URLClassificationCache.clear c).
Proof. intros k e []. Qed.

Lemma reachable_consistent c : reachable c -> cacheConsistent c.
Proof.
  induction 1 as [| c url data now _ IH | c _ _].
  - intros k e [].
  - now apply shouldInterceptUrl_consistent.
  - apply clear_consistent.
Qed.

(** In a reachable state the answer is the decision of the address,
    whatever the payload and whether or not the cache already holds it. *)
Lemma shouldInterceptUrl_reachable url data now c :
  reachable c ->
  fst (shouldInterceptUrl (JString url) data now c) = urlDecision url.
Proof.
  intros Hr. apply (shouldInterceptUrl_consistent (JString url) data now c).
  now apply reachable_consistent.
Qed.

(** ** Claims about the classifier *)

(** C1, as stated, fails: an address with an allowlist pattern and a
    keyword, no essential endpoint and no precise endpoint, is let through
    when it carries an important-URL marker (here [localhost:]). *)
Lemma C1_counterexample :
  let url := "http://localhost:3000/checkpoint-blobs?src=data-collection" in
  containsAny CODE_INDEXING_PATTERNS url = true /\
  containsAny TELEMETRY_PATTERNS url = true /\
  containsAny INTERCEPT_PATTERNS url = true /\
  containsAny ESSENTIAL_ENDPOINTS url = false /\
  containsAny PRECISE_TELEMETRY_ENDPOINTS url = false /\
  fst (shouldInterceptUrl (JString url) JUndefined 0 URLClassificationCache.init) = false.
Proof. vm_compute. repeat split; reflexivity. Qed.

(** C1 (amended): an address that contains an allowlist (code-indexing)
    pattern and a keyword of [INTERCEPT_PATTERNS], no essential endpoint,
    no precise endpoint and no important-URL marker is intercepted, in
    every reachable state of the cache and for every payload: the
    allowlist match does not protect it. *)
Theorem C1_keyword_wins_over_allowlist (url : string) (data : js_value) (now : Z)
    (c : URLClassificationCache.t) :
  reachable c ->
  containsAny CODE_INDEXING_PATTERNS url = true ->
  containsAny INTERCEPT_PATTERNS url = true ->
  containsAny ESSENTIAL_ENDPOINTS url = false ->
  containsAny PRECISE_TELEMETRY_ENDPOINTS url = false ->
  isImportantUrl url = false ->
  fst (shouldInterceptUrl (JString url) data now c) = true.
Proof.
  intros Hr _ Hkw Hess _ Himp.
  rewrite (shouldInterceptUrl_reachable url data now c Hr).
  unfold urlDecision. now rewrite Hess, Hkw, Himp.
Qed.

Lemma C1_keyword_wins_over_allowlist_witness :
  let url := "https://api.example.com/checkpoint-blobs?src=data-collection" in
  reachable URLClassificationCache.init /\
  containsAny CODE_INDEXING_PATTERNS url = true /\
  containsAny INTERCEPT_PATTERNS url = true /\
  containsAny ESSENTIAL_ENDPOINTS url = false /\
  containsAny PRECISE_TELEMETRY_ENDPOINTS url = false /\
  isImportantUrl url = false /\
  fst (shouldInterceptUrl (JString url) (JString "payload") 7 URLClassificationCache.init) = true.
Proof.
  cbv zeta.
  repeat (split; [first [exact reachable_init | vm_compute; reflexivity] |]).
  apply C1_keyword_wins_over_allowlist;
    first [exact reachable_init | vm_compute; reflexivity].
Defined.

(** C2: an address that contains an essential endpoint is never
    intercepted, in every reachable state of the cache and for every
    payload, whatever precise endpoint or keyword it contains as well: the
    essential check comes first and returns. *)
Theorem C2_essential_always_allowed (url : string) (data : js_value) (now : Z)
    (c : URLClassificationCache.t) :
  reachable c ->
  containsAny ESSENTIAL_ENDPOINTS url = true ->
  fst (shouldInterceptUrl (JString url) data now c) = false.
Proof.
  intros Hr Hess.
  rewrite (shouldInterceptUrl_reachable url data now c Hr).
  unfold urlDecision. now rewrite Hess.
Qed.

Lemma C2_essential_always_allowed_witness :
  let url := "https://api.example.com/client-metrics/analytics?session_id=1" in
  reachable URLClassificationCache.init /\
  containsAny ESSENTIAL_ENDPOINTS url = true /\
  containsAny PRECISE_TELEMETRY_ENDPOINTS url = true /\
  containsAny INTERCEPT_PATTERNS url = true /\
  fst (shouldInterceptUrl (JString url) JUndefined 0 URLClassificationCache.init) = false.
Proof.
  cbv zeta.
  repeat (split; [first [exact reachable_init | vm_compute; reflexivity] |]).
  apply C2_essential_always_allowed;
    first [exact reachable_init | vm_compute; reflexivity].
Defined.

(** C3, as stated, fails: the keyword [telemetry] occurs in the payload
    only, the address matches no table, and the request is not
    intercepted. *)
Lemma C3_counterexample :
  let url := "https://example.com/api/submit" in
  let data := JString "kind=telemetry&value=1" in
  containsAny ESSENTIAL_ENDPOINTS url = false /\
  containsAny PRECISE_TELEMETRY_ENDPOINTS url = false /\
  containsAny CODE_INDEXING_PATTERNS url = false /\
  containsAny TELEMETRY_PATTERNS (SmartDataClassifier.dataString data) = true /\
  fst (shouldInterceptUrl (JString url) data 0 URLClassificationCache.init) = false.
Proof. vm_compute. repeat split; reflexivity. Qed.

(** C3 (amended): for every request whose address contains no essential
    endpoint, no precise endpoint and no allowlist pattern,
    [shouldInterceptUrl] intercepts exactly when the address itself
    contains a keyword of [INTERCEPT_PATTERNS] and no important-URL
    marker, whatever the payload is: the payload only enters the cache key
    and is not scanned. *)
Theorem C3_payload_not_scanned (url : string) (data : js_value) (now : Z)
    (c : URLClassificationCache.t) :
  reachable c ->
  containsAny ESSENTIAL_ENDPOINTS url = false ->
  containsAny PRECISE_TELEMETRY_ENDPOINTS url = false ->
  containsAny CODE_INDEXING_PATTERNS url = false ->
  fst (shouldInterceptUrl (JString url) data now c) =
  containsAny INTERCEPT_PATTERNS url && negb (isImportantUrl url).
Proof.
  intros Hr Hess _ _.
  rewrite (shouldInterceptUrl_reachable url data now c Hr).
  unfold urlDecision. now rewrite Hess.
Qed.

Lemma C3_payload_not_scanned_witness :
  let url := "https://example.com/api/fingerprint" in
  let data := JString "kind=telemetry&value=1" in
  reachable URLClassificationCache.init /\
  containsAny ESSENTIAL_ENDPOINTS url = false /\
  containsAny PRECISE_TELEMETRY_ENDPOINTS url = false /\
  containsAny CODE_INDEXING_PATTERNS url = false /\
  fst (shouldInterceptUrl (JString url) data 0 URLClassificationCache.init) =
  containsAny INTERCEPT_PATTERNS url && negb (isImportantUrl url).
Proof.
  cbv zeta.
  repeat (split; [first [exact reachable_init | vm_compute; reflexivity] |]).
  apply C3_payload_not_scanned;
    first [exact reachable_init | vm_compute; reflexivity].
Defined.

(** C4: an address that contains no pattern of any table is not
    intercepted, in every reachable state of the cache and for every
    payload; the empty address is such an address; and a call with an
    absent or non-string payload is the call with the empty string, in
    result and in the state it leaves. *)
Theorem C4_fail_open (url : string) (data : js_value) (json : string) (now : Z)
    (c : URLClassificationCache.t) :
  reachable c ->
  containsAny ESSENTIAL_ENDPOINTS url = false ->
  containsAny PRECISE_TELEMETRY_ENDPOINTS url = false ->
  containsAny INTERCEPT_PATTERNS url = false ->
  containsAny CODE_INDEXING_PATTERNS url = false ->
  fst (shouldInterceptUrl (JString url) data now c) = false /\
  fst (shouldInterceptUrl (JString "") data now c) = false /\
  shouldInterceptUrl (JString url) JUndefined now c =
    shouldInterceptUrl (JString url) (JString "") now c /\
  shouldInterceptUrl (JString url) (JObject json) now c =
    shouldInterceptUrl (JString url) (JString "") now c.
Proof.
  intros Hr _ _ Hkw _.
  split; [| split; [| split]].
  - rewrite (shouldInterceptUrl_reachable url data now c Hr).
    unfold urlDecision. rewrite Hkw. now rewrite andb_false_r.
  - now rewrite (shouldInterceptUrl_reachable "" data now c Hr).
  - reflexivity.
  - unfold shouldInterceptUrl, URLClassificationCache.get, URLClassificationCache.set.
    reflexivity.
Qed.

Lemma C4_fail_open_witness :
  let url := "https://example.com/unknown-endpoint" in
  let c := snd (shouldInterceptUrl (JString "https://example.com/analytics") JUndefined 1
                  URLClassificationCache.init) in
  reachable c /\
  containsAny ESSENTIAL_ENDPOINTS url = false /\
  containsAny PRECISE_TELEMETRY_ENDPOINTS url = false /\
  containsAny INTERCEPT_PATTERNS url = false /\
  containsAny CODE_INDEXING_PATTERNS url = false /\
  fst (shouldInterceptUrl (JString url) (JObject "{}") 2 c) = false.
Proof.
  cbv zeta.
  repeat (split;
    [first [exact (reachable_intercept _ _ _ _ reachable_init) | vm_compute; reflexivity] |]).
  apply (C4_fail_open _ (JObject "{}") "{}" 2 _);
    first [exact (reachable_intercept _ _ _ _ reachable_init) | vm_compute; reflexivity].
Defined.

(** ** Claims about the decision cache *)

(** C6: after [set(a, p, d)], [get(a, p)] finds an entry and its decision
    fields are those of [d]; this holds from every state of the cache.
    The entry also records the time of the [set] and the address. *)
Theorem C6_set_then_get (a : string) (p : js_value) (d : Decision) (now : Z)
    (c : URLClassificationCache.t) :
  fst (URLClassificationCache.get a p (URLClassificationCache.set a p d now c)) =
    Some {| entry_shouldIntercept := shouldIntercept d;
            entry_reason := reason d;
            entry_timestamp := now;
            entry_url := a |} /\
  option_map decisionOf
    (fst (URLClassificationCache.get a p (URLClassificationCache.set a p d now c))) = Some d.
Proof.
  rewrite get_result. unfold URLClassificationCache.set at 1 2. simpl.
  rewrite JSMap_get_set_same. split; [reflexivity |].
  destruct d; reflexivity.
Qed.

(** C7, as stated, fails: a [get] on the initial cache changes the
    counters. *)
Lemma C7_counterexample :
  snd (URLClassificationCache.get "https://example.com/" JUndefined URLClassificationCache.init)
  <> URLClassificationCache.init.
Proof. vm_compute. discriminate. Qed.

(** C7 (amended): [get] leaves the entry table and the capacity bound
    unchanged; it adds one to [totalRequests], and one to [hits] when it
    finds an entry or to [misses] when it does not, leaving the other
    counter as it was. *)
Theorem C7_get_frame (url : string) (data : js_value) (c : URLClassificationCache.t) :
  let r := fst (URLClassificationCache.get url data c) in
  let c' := snd (URLClassificationCache.get url data c) in
  let s := URLClassificationCache.stats c in
  let s' := URLClassificationCache.stats c' in
  URLClassificationCache.cache c' = URLClassificationCache.cache c /\
  URLClassificationCache.maxCacheSize c' = URLClassificationCache.maxCacheSize c /\
  URLClassificationCache.totalRequests s' = S (URLClassificationCache.totalRequests s) /\
  match r with
  | Some _ =>
      URLClassificationCache.hits s' = S (URLClassificationCache.hits s) /\
      URLClassificationCache.misses s' = URLClassificationCache.misses s
  | None =>
      URLClassificationCache.hits s' = URLClassificationCache.hits s /\
      URLClassificationCache.misses s' = S (URLClassificationCache.misses s)
  end.
Proof.
  unfold URLClassificationCache.get, JSMap.has.
  destruct (JSMap.get _ _); simpl; repeat split; reflexivity.
Qed.

(** ** The bound of the cache and its eviction order *)

Section JSMapSize.
Context {V : Type}.
Implicit Types (m : JSMap.t V) (k : string) (v : V).

Lemma JSMap_set_size_le m k v : JSMap.size (JSMap.set m k v) <= S (JSMap.size m).
Proof.
  unfold JSMap.size. induction m as [|[k' v'] m IH]; simpl; [lia |].
  destruct (String.eqb k' k); simpl; lia.
Qed.

Lemma JSMap_delete_first_size m :
  m <> [] -> S (JSMap.size (JSMap.delete m (JSMap.firstKey m))) = JSMap.size m.
Proof.
  destruct m as [|[k v] m]; [congruence |]. intros _.
  simpl. now rewrite String.eqb_refl.
Qed.

Lemma JSMap_delete_first_tl m : JSMap.delete m (JSMap.firstKey m) = tl m.
Proof.
  destruct m as [|[k v] m]; [reflexivity |].
  simpl. now rewrite String.eqb_refl.
Qed.

Lemma JSMap_get_None_keys m k : JSMap.get m k = None <-> ~ In k (JSMap.keys m).
Proof.
  unfold JSMap.keys. induction m as [|[k' v'] m IH]; simpl; [tauto |].
  destruct (String.eqb k' k) eqn:E.
  - apply String.eqb_eq in E. split; [discriminate | tauto].
  - apply String.eqb_neq in E. rewrite IH. tauto.
Qed.

Lemma JSMap_has_keys m k : JSMap.has m k = true <-> In k (JSMap.keys m).
Proof.
  unfold JSMap.has. pose proof (JSMap_get_None_keys m k) as H.
  destruct (JSMap.get m k).
  - split; [intros _ | reflexivity].
    destruct (in_dec string_dec k (JSMap.keys m)) as [Hin | Hn]; [exact Hin |].
    apply H in Hn. discriminate.
  - split; [discriminate |]. intros Hin. exfalso. now apply (proj1 H).
Qed.

Lemma JSMap_set_fresh m k v : ~ In k (JSMap.keys m) -> JSMap.set m k v = (m ++ [(k, v)])%list.
Proof.
  unfold JSMap.keys. induction m as [|[k' v'] m IH]; simpl; intros Hn; [reflexivity |].
  destruct (String.eqb k' k) eqn:E.
  - apply String.eqb_eq in E. tauto.
  - rewrite IH; tauto.
Qed.
End JSMapSize.

Lemma set_maxCacheSize url data result now c :
  URLClassificationCache.maxCacheSize (URLClassificationCache.set url data result now c) =
  URLClassificationCache.maxCacheSize c.
Proof. reflexivity. Qed.

(** One [set] keeps the table within a bound of at least one entry. *)
Lemma set_within_bound url data result now c :
  1 <= URLClassificationCache.maxCacheSize c ->
  JSMap.size (URLClassificationCache.cache c) <= URLClassificationCache.maxCacheSize c ->
  JSMap.size (URLClassificationCache.cache (URLClassificationCache.set url data result now c))
    <= URLClassificationCache.maxCacheSize c.
Proof.
  intros Hpos Hle. unfold URLClassificationCache.set. simpl.
  set (k := URLClassificationCache.generateCacheKey url data).
  set (e := mkCacheEntry _ _ _ _).
  destruct (URLClassificationCache.maxCacheSize c <=? JSMap.size (URLClassificationCache.cache c))%nat
    eqn:E.
  - apply Nat.leb_le in E.
    assert (Hne : URLClassificationCache.cache c <> []).
    { intros H. rewrite H in E. simpl in E. lia. }
    pose proof (JSMap_delete_first_size _ Hne) as Hd.
    pose proof (JSMap_set_size_le
                  (JSMap.delete (URLClassificationCache.cache c)
                     (JSMap.firstKey (URLClassificationCache.cache c))) k e) as Hs.
    lia.
  - apply Nat.leb_gt in E.
    pose proof (JSMap_set_size_le (URLClassificationCache.cache c) k e) as Hs. lia.
Qed.

Lemma applySets_within_bound ops c :
  1 <= URLClassificationCache.maxCacheSize c ->
  JSMap.size (URLClassificationCache.cache c) <= URLClassificationCache.maxCacheSize c ->
  URLClassificationCache.maxCacheSize (applySets ops c) = URLClassificationCache.maxCacheSize c /\
  JSMap.size (URLClassificationCache.cache (applySets ops c))
    <= URLClassificationCache.maxCacheSize c.
Proof.
  revert c. induction ops as [|op ops IH]; intros c Hpos Hle; [split; [reflexivity | exact Hle] |].
  simpl.
  pose proof (set_within_bound (set_url op) (set_data op) (set_result op) (set_now op) c Hpos Hle)
    as H1.
  assert (Hmax : URLClassificationCache.maxCacheSize (applySet c op) =
                 URLClassificationCache.maxCacheSize c) by reflexivity.
  destruct (IH (applySet c op)) as [Hm Hs].
  - now rewrite Hmax.
  - rewrite Hmax. exact H1.
  - rewrite Hmax in Hm, Hs. split; assumption.
Qed.

(** While there is room, the calls with fresh keys append their entries
    in call order. *)
Lemma applySets_fill ops c :
  NoDup (JSMap.keys (URLClassificationCache.cache c) ++ map keyOf ops)%list ->
  JSMap.size (URLClassificationCache.cache c) + List.length ops <= URLClassificationCache.maxCacheSize c ->
  URLClassificationCache.cache (applySets ops c) =
    (URLClassificationCache.cache c ++ map (fun op => (keyOf op, entryOf op)) ops)%list /\
  URLClassificationCache.maxCacheSize (applySets ops c) = URLClassificationCache.maxCacheSize c.
Proof.
  revert c. induction ops as [|op ops IH]; intros c Hnd Hlen.
  - simpl. now rewrite app_nil_r.
  - simpl in Hlen.
    assert (Hstep : URLClassificationCache.cache (applySet c op) =
                    (URLClassificationCache.cache c ++ [(keyOf op, entryOf op)])%list).
    { unfold applySet, URLClassificationCache.set. simpl.
      destruct (URLClassificationCache.maxCacheSize c <=? JSMap.size (URLClassificationCache.cache c))%nat
        eqn:E; [apply Nat.leb_le in E; lia |].
      apply JSMap_set_fresh. intros Hin.
      apply NoDup_remove_2 in Hnd. apply Hnd. apply in_or_app. now left. }
    destruct (IH (applySet c op)) as [Hc Hm].
    + rewrite Hstep. unfold JSMap.keys in *. rewrite map_app, <- app_assoc. exact Hnd.
    + assert (Hmax : URLClassificationCache.maxCacheSize (applySet c op) =
                     URLClassificationCache.maxCacheSize c) by reflexivity.
      rewrite Hstep, Hmax. unfold JSMap.size in *. rewrite length_app. simpl. lia.
    + simpl. split.
      * rewrite Hc, Hstep, <- app_assoc. reflexivity.
      * rewrite Hm. reflexivity.
Qed.

(** One call more than the bound, all keys distinct, into an empty table:
    what remains is the entries of all calls but the first, in call order. *)
Lemma applySets_overflow (N : nat) (c0 : URLClassificationCache.t) (ops : list SetCall) :
  1 <= N ->
  URLClassificationCache.cache c0 = JSMap.empty ->
  URLClassificationCache.maxCacheSize c0 = N ->
  List.length ops = S N ->
  NoDup (map keyOf ops) ->
  URLClassificationCache.cache (applySets ops c0) =
    map (fun op => (keyOf op, entryOf op)) (tl ops).
Proof.
  intros Hpos Hempty Hmax Hlen Hnd.
  destruct (exists_last (l := ops)) as [ops1 [opN Hops]]; [destruct ops; simpl in *; congruence |].
  subst ops. rewrite length_app in Hlen. simpl in Hlen.
  assert (Hlen1 : List.length ops1 = N) by lia.
  rewrite map_app in Hnd. simpl in Hnd.
  unfold applySets. rewrite fold_left_app. simpl.
  destruct (applySets_fill ops1 c0) as [Hc Hm].
  { rewrite Hempty. simpl. now apply NoDup_app_remove_r in Hnd. }
  { rewrite Hempty, Hmax. simpl. lia. }
  fold (applySets ops1 c0). rewrite Hempty in Hc. simpl in Hc.
  unfold applySet, URLClassificationCache.set. simpl.
  rewrite Hc, Hm, Hmax. unfold JSMap.size. rewrite length_map, Hlen1, Nat.leb_refl.
  rewrite JSMap_delete_first_tl.
  destruct ops1 as [|op0 ops1]; [simpl in Hlen1; lia |].
  simpl. rewrite map_app. simpl.
  apply JSMap_set_fresh.
  unfold JSMap.keys. rewrite map_map. simpl.
  simpl in Hnd. apply NoDup_cons_iff in Hnd as [_ Hnd].
  apply NoDup_remove_2 in Hnd. rewrite app_nil_r in Hnd. exact Hnd.
Qed.

Lemma get_maxCacheSize url data c :
  URLClassificationCache.maxCacheSize (snd (URLClassificationCache.get url data c)) =
  URLClassificationCache.maxCacheSize c.
Proof. unfold URLClassificationCache.get. now destruct (JSMap.has _ _). Qed.

(** The bound also holds between the calls of [shouldInterceptUrl] and
    [clear] that make up a run of the script. *)
Lemma reachable_within_bound c :
  reachable c ->
  URLClassificationCache.maxCacheSize c = 1000 /\
  JSMap.size (URLClassificationCache.cache c) <= 1000.
Proof.
  induction 1 as [| c url data now _ [IHm IHs] | c _ [IHm _]].
  - simpl. lia.
  - destruct url as [| url |]; try (simpl; split; assumption).
    rewrite shouldInterceptUrl_cases.
    pose proof (get_cache url (defaultData data) c) as Hc.
    pose proof (get_maxCacheSize url (defaultData data) c) as Hm.
    destruct (fst (URLClassificationCache.get url (defaultData data) c)); simpl snd.
    + rewrite Hc, Hm. split; assumption.
    + split; [simpl; now rewrite Hm |].
      rewrite <- IHm, <- Hm. apply set_within_bound; rewrite ?Hc, Hm; lia.
  - simpl. split; [exact IHm | lia].
Qed.

(** C5: starting from the cache of the script, whose bound is 1000, the
    table never holds more than 1000 entries after any sequence of [set]
    calls; one call more than the bound [N] (at least 1, as 1000 is), with
    pairwise distinct keys, into an empty table leaves exactly [N]
    entries, without the key of the first call and with the keys of all
    the later calls; and the table holds at most 1000 entries in every
    state the script reaches through [shouldInterceptUrl] and [clear]. *)
Theorem C5_cache_bound :
  (forall ops : list SetCall,
     URLClassificationCache.maxCacheSize (applySets ops URLClassificationCache.init) = 1000 /\
     JSMap.size (URLClassificationCache.cache (applySets ops URLClassificationCache.init)) <= 1000) /\
  (forall (N : nat) (c0 : URLClassificationCache.t) (first : SetCall) (rest : list SetCall),
     1 <= N ->
     URLClassificationCache.cache c0 = JSMap.empty ->
     URLClassificationCache.maxCacheSize c0 = N ->
     List.length (first :: rest) = S N ->
     NoDup (map keyOf (first :: rest)) ->
     let c' := applySets (first :: rest) c0 in
     JSMap.size (URLClassificationCache.cache c') = N /\
     JSMap.has (URLClassificationCache.cache c') (keyOf first) = false /\
     (forall op, In op rest -> JSMap.has (URLClassificationCache.cache c') (keyOf op) = true)) /\
  (forall c : URLClassificationCache.t,
     reachable c -> JSMap.size (URLClassificationCache.cache c) <= 1000).
Proof.
  split; [| split].
  - intros ops. apply (applySets_within_bound ops URLClassificationCache.init); simpl; lia.
  - intros N c0 first rest Hpos Hempty Hmax Hlen Hnd c'. subst c'.
    rewrite (applySets_overflow N c0 (first :: rest) Hpos Hempty Hmax Hlen Hnd).
    simpl tl. simpl in Hlen. split; [| split].
    + unfold JSMap.size. rewrite length_map. lia.
    + destruct (JSMap.has _ _) eqn:E; [| reflexivity].
      apply JSMap_has_keys in E. unfold JSMap.keys in E. rewrite map_map in E. simpl in E.
      simpl in Hnd. apply NoDup_cons_iff in Hnd as [Hnotin _]. contradiction.
    + intros op Hin. apply JSMap_has_keys. unfold JSMap.keys. rewrite map_map. simpl.
      now apply in_map.
  - intros c Hr. now apply reachable_within_bound.
Qed.

Lemma C5_cache_bound_witness :
  let d := {| shouldIntercept := true; reason := "r" |} in
  let c0 := {| URLClassificationCache.cache := JSMap.empty;
               URLClassificationCache.stats := URLClassificationCache.stats URLClassificationCache.init;
               URLClassificationCache.maxCacheSize := 2 |} in
  let first := mkSetCall "https://a.example/1" JUndefined d 1 in
  let rest := [mkSetCall "https://a.example/2" (JString "x") d 2;
               mkSetCall "https://a.example/3" JUndefined d 3] in
  (1 <= 2 /\
   URLClassificationCache.cache c0 = JSMap.empty /\
   URLClassificationCache.maxCacheSize c0 = 2 /\
   List.length (first :: rest) = 3 /\
   NoDup (map keyOf (first :: rest))) /\
  JSMap.size (URLClassificationCache.cache (applySets (first :: rest) c0)) = 2 /\
  JSMap.has (URLClassificationCache.cache (applySets (first :: rest) c0)) (keyOf first) = false.
Proof.
  cbv zeta.
  assert (Hnd : NoDup (map keyOf
                  [mkSetCall "https://a.example/1" JUndefined (mkDecision true "r") 1;
                   mkSetCall "https://a.example/2" (JString "x") (mkDecision true "r") 2;
                   mkSetCall "https://a.example/3" JUndefined (mkDecision true "r") 3])).
  { vm_compute. repeat constructor; simpl; intuition discriminate. }
  split.
  - repeat split; [lia | exact Hnd].
  - refine (let H := proj1 (proj2 C5_cache_bound) 2 _ _ _ _ _ _ _ Hnd in
            conj (proj1 H) (proj1 (proj2 H))).
    + lia.
    + reflexivity.
    + reflexivity.
    + reflexivity.
Defined.

(** ** The hash synthesizer *)

Lemma allHex_app (a b : string) : allHex (a ++ b) = allHex a && allHex b.
Proof.
  induction a as [|x a IH]; simpl; [reflexivity |].
  rewrite IH. now rewrite andb_assoc.
Qed.

Lemma hex_uint_allHex (d : Hexadecimal.uint) :
  allHex (HexadecimalString.NilEmpty.string_of_uint d) = true.
Proof. induction d; simpl; auto. Qed.

Lemma Number_toString16_allHex (z : Z) : (0 <= z)%Z -> allHex (Number_toString16 z) = true.
Proof.
  intros Hz. unfold Number_toString16.
  destruct (z <? 0)%Z eqn:E; [apply Z.ltb_lt in E; lia |].
  unfold HexadecimalString.NilZero.string_of_uint.
  destruct (N.to_hex_uint (Z.abs_N z)); try reflexivity; apply (hex_uint_allHex (_ _)).
Qed.

Lemma nibble_cases (z : Z) :
  (0 <= z < 16)%Z ->
  In z [0; 1; 2; 3; 4; 5; 6; 7; 8; 9; 10; 11; 12; 13; 14; 15]%Z.
Proof. intros H. simpl. lia. Qed.

Lemma Number_toString16_nibble (z : Z) :
  (0 <= z < 16)%Z -> String.length (Number_toString16 z) = 1.
Proof.
  intros H. apply nibble_cases in H. simpl in H.
  repeat (destruct H as [<- | H]; [reflexivity |]). contradiction.
Qed.

Lemma lxor_nibble (a b : Z) :
  (0 <= a < 16)%Z -> (0 <= b < 16)%Z -> (0 <= Z.lxor a b < 16)%Z.
Proof.
  intros Ha Hb. apply nibble_cases in Ha, Hb. simpl in Ha, Hb.
  repeat (destruct Ha as [<- | Ha];
          [repeat (destruct Hb as [<- | Hb]; [vm_compute; split; congruence |]); contradiction |]).
  contradiction.
Qed.

Lemma hexValue_nibble (c : ascii) (z : Z) : hexValue c = Some z -> (0 <= z < 16)%Z.
Proof.
  unfold hexValue.
  repeat match goal with
         | |- context [if ?b then _ else _] => destruct b eqn:?
         end; intros [= <-];
  repeat match goal with
         | H : (_ && _) = true |- _ => apply andb_prop in H as [? ?]
         | H : (_ <=? _)%nat = true |- _ => apply Nat.leb_le in H
         end; lia.
Qed.

Lemma xorOperand_nibble (c : option ascii) : (0 <= xorOperand (parseInt16 c) < 16)%Z.
Proof.
  destruct c as [c|]; simpl; [| lia].
  destruct (hexValue c) as [z|] eqn:E; simpl; [now apply (hexValue_nibble c) | lia].
Qed.

(** One round of the loop appends exactly one hexadecimal digit. *)
Lemma extendStep_spec (seed : string) (index : Z) (ext : string) :
  String.length (FeatureVectorSpoofer.extendStep seed index ext) = S (String.length ext) /\
  (allHex ext = true -> allHex (FeatureVectorSpoofer.extendStep seed index ext) = true).
Proof.
  unfold FeatureVectorSpoofer.extendStep.
  set (a := xorOperand (parseInt16 _)).
  set (b := xorOperand (parseInt16 _)).
  assert (Hab : (0 <= Z.lxor a b < 16)%Z)
    by (apply lxor_nibble; apply xorOperand_nibble).
  split.
  - rewrite string_app_length, (Number_toString16_nibble _ Hab). lia.
  - intros H. rewrite allHex_app, H. simpl. apply Number_toString16_allHex. lia.
Qed.

(** The loop leaves through its exit test whenever the fuel covers the
    characters still missing. *)
Lemma extendLoop_spec (fuel : nat) (seed : string) (index : Z) (ext : string) :
  64 <= fuel + String.length ext ->
  allHex ext = true ->
  exists r, FeatureVectorSpoofer.extendLoop fuel seed index ext = Some r /\
            64 <= String.length r /\ allHex r = true.
Proof.
  revert ext. induction fuel as [|fuel IH]; intros ext Hlen Hhex.
  - simpl in Hlen. simpl.
    destruct (String.length ext <? 64)%nat eqn:E; [apply Nat.ltb_lt in E; lia |].
    exists ext. auto.
  - simpl. destruct (String.length ext <? 64)%nat eqn:E.
    + destruct (extendStep_spec seed index ext) as [Hl Hh].
      apply IH; [rewrite Hl; lia | now apply Hh].
    + apply Nat.ltb_ge in E. exists ext. auto.
Qed.

Lemma substring0_length (n : nat) (s : string) :
  n <= String.length s -> String.length (substring0 n s) = n.
Proof.
  unfold substring0. revert s; induction n as [|n IH]; intros s H.
  - destruct s; reflexivity.
  - destruct s as [|c s]; simpl in *; [lia |]. rewrite IH; [reflexivity | lia].
Qed.

Lemma substring0_allHex (n : nat) (s : string) :
  allHex s = true -> allHex (substring0 n s) = true.
Proof.
  unfold substring0. revert s; induction n as [|n IH]; intros s H.
  - destruct s; reflexivity.
  - destruct s as [|c s]; simpl in *; [reflexivity |].
    apply andb_prop in H as [Hc Hs]. rewrite Hc. simpl. now apply IH.
Qed.

Lemma calculateHash_spec (Data : Type) (JSON_stringify : Data -> string)
    (sm : SessionManager.t) (data : Data) (index : Z) :
  exists h, FeatureVectorSpoofer.calculateHash Data JSON_stringify sm data index = Some h /\
            String.length h = 64 /\ allHex h = true.
Proof.
  unfold FeatureVectorSpoofer.calculateHash.
  set (baseHash := Number_toString16 _).
  set (seed := substring0 8 _).
  assert (Hbase : allHex baseHash = true)
    by (apply Number_toString16_allHex, Z.abs_nonneg).
  destruct (extendLoop_spec 64 seed index baseHash) as [r [Hr [Hl Hh]]]; [lia | exact Hbase |].
  rewrite Hr. eexists. split; [reflexivity |].
  split; [now apply substring0_length | now apply substring0_allHex].
Qed.

(** C8: for every seed data, every way of writing it as JSON text, every
    session and every integer index, [calculateHash] returns a string of
    exactly 64 characters, all of them hexadecimal digits; and
    [calculateVersionHash] returns ["v1#"] followed by the 64-character
    result of [calculateHash] at index 12. *)
Theorem C8_hash_shape (Data : Type) (JSON_stringify : Data -> string)
    (sm : SessionManager.t) (data : Data) (index : Z) :
  (exists h,
     FeatureVectorSpoofer.calculateHash Data JSON_stringify sm data index = Some h /\
     String.length h = 64 /\ allHex h = true) /\
  (exists h12,
     FeatureVectorSpoofer.calculateHash Data JSON_stringify sm data 12 = Some h12 /\
     String.length h12 = 64 /\ allHex h12 = true /\
     FeatureVectorSpoofer.calculateVersionHash Data JSON_stringify sm data =
       Some ("v1#" ++ h12)).
Proof.
  split; [apply calculateHash_spec |].
  destruct (calculateHash_spec Data JSON_stringify sm data 12) as [h [Hh [Hl Hx]]].
  exists h. repeat split; try assumption.
  unfold FeatureVectorSpoofer.calculateVersionHash. now rewrite Hh.
Qed.

(** C9: the result of [calculateHash] is determined by the seed data, the
    index and the main session id: two sessions with the same main id give
    the same string, whatever their other identifiers are. *)
Theorem C9_hash_deterministic (Data : Type) (JSON_stringify : Data -> string)
    (sm1 sm2 : SessionManager.t) (data : Data) (index : Z) :
  SessionManager.getMainSessionId sm1 = SessionManager.getMainSessionId sm2 ->
  FeatureVectorSpoofer.calculateHash Data JSON_stringify sm1 data index =
  FeatureVectorSpoofer.calculateHash Data JSON_stringify sm2 data index.
Proof.
  intros Hmain. unfold FeatureVectorSpoofer.calculateHash. now rewrite Hmain.
Qed.

Lemma C9_hash_deterministic_witness :
  let sm1 := {| SessionManager.main := "3f2a9c1e-1b2c-4d3e-8f4a-5b6c7d8e9f0a";
                SessionManager.user := "11111111-1111-4111-8111-111111111111";
                SessionManager.anonymous := "22222222-2222-4222-8222-222222222222" |} in
  let sm2 := {| SessionManager.main := "3f2a9c1e-1b2c-4d3e-8f4a-5b6c7d8e9f0a";
                SessionManager.user := "33333333-3333-4333-8333-333333333333";
                SessionManager.anonymous := "44444444-4444-4444-8444-444444444444" |} in
  SessionManager.getMainSessionId sm1 = SessionManager.getMainSessionId sm2 /\
  FeatureVectorSpoofer.calculateHash string quoted sm1 "en-US" 17 =
  FeatureVectorSpoofer.calculateHash string quoted sm2 "en-US" 17.
Proof.
  cbv zeta. split; [reflexivity |].
  apply C9_hash_deterministic. reflexivity.
Defined.

(** ** The fetch shim *)






(** ** More about the decision cache *)

Section JSMapMore.
Context {V : Type}.
Implicit Types (m : JSMap.t V) (k : string) (v : V).

Lemma JSMap_get_set m k v k' :
  JSMap.get (JSMap.set m k v) k' = if String.eqb k k' then Some v else JSMap.get m k'.
Proof.
  induction m as [|[k0 v0] m IH]; simpl.
  - destruct (String.eqb k k'); reflexivity.
  - destruct (String.eqb k0 k) eqn:E0; simpl.
    + apply String.eqb_eq in E0. subst k0.
      destruct (String.eqb k k'); reflexivity.
    + destruct (String.eqb k0 k') eqn:E1; [| exact IH].
      apply String.eqb_eq in E1. subst k0.
      rewrite String.eqb_sym, E0. reflexivity.
Qed.

Lemma JSMap_keys_set m k v :
  JSMap.keys (JSMap.set m k v) =
  if JSMap.has m k then JSMap.keys m else (JSMap.keys m ++ [k])%list.
Proof.
  unfold JSMap.has, JSMap.keys. induction m as [|[k0 v0] m IH]; simpl; [reflexivity |].
  destruct (String.eqb k0 k) eqn:E0; simpl; [reflexivity |].
  rewrite IH. destruct (JSMap.get m k); reflexivity.
Qed.

Lemma JSMap_keys_tl m : JSMap.keys (tl m) = tl (JSMap.keys m).
Proof. destruct m; reflexivity. Qed.

Lemma JSMap_set_NoDup m k v : NoDup (JSMap.keys m) -> NoDup (JSMap.keys (JSMap.set m k v)).
Proof.
  intros Hnd. rewrite JSMap_keys_set.
  destruct (JSMap.has m k) eqn:E; [exact Hnd |].
  assert (Hnotin : ~ In k (JSMap.keys m)).
  { intros Hin. apply JSMap_has_keys in Hin. congruence. }
  clear E. induction (JSMap.keys m) as [|x l IH]; simpl.
  - constructor; [tauto | constructor].
  - apply NoDup_cons_iff in Hnd as [Hx Hl]. constructor.
    + rewrite in_app_iff. simpl. intros [H | [H | []]]; [tauto |]. subst. simpl in Hnotin. tauto.
    + apply IH; [exact Hl |]. simpl in Hnotin. tauto.
Qed.

Lemma JSMap_tl_NoDup m : NoDup (JSMap.keys m) -> NoDup (JSMap.keys (tl m)).
Proof.
  destruct m as [|[k v] m]; simpl; [tauto |].
  intros H. now apply NoDup_cons_iff in H.
Qed.

Lemma JSMap_get_tl m k v :
  NoDup (JSMap.keys m) -> JSMap.get (tl m) k = Some v -> JSMap.get m k = Some v.
Proof.
  destruct m as [|[k0 v0] m]; simpl; [tauto |].
  intros Hnd Hget. apply NoDup_cons_iff in Hnd as [Hnotin _].
  destruct (String.eqb k0 k) eqn:E; [| exact Hget].
  apply String.eqb_eq in E. subst k0. exfalso. apply Hnotin.
  apply JSMap_has_keys. unfold JSMap.has. now rewrite Hget.
Qed.
End JSMapMore.

(** The table [set] works on after the eviction step. *)
Lemma set_cache url data result now c :
  URLClassificationCache.cache (URLClassificationCache.set url data result now c) =
  JSMap.set
    (if (URLClassificationCache.maxCacheSize c <=? JSMap.size (URLClassificationCache.cache c))%nat
     then tl (URLClassificationCache.cache c) else URLClassificationCache.cache c)
    (URLClassificationCache.generateCacheKey url data)
    {| entry_shouldIntercept := shouldIntercept result; entry_reason := reason result;
       entry_timestamp := now; entry_url := url |}.
Proof.
  unfold URLClassificationCache.set. simpl.
  destruct (_ <=? _)%nat; [now rewrite JSMap_delete_first_tl | reflexivity].
Qed.

Lemma set_keys_NoDup url data result now c :
  NoDup (JSMap.keys (URLClassificationCache.cache c)) ->
  NoDup (JSMap.keys (URLClassificationCache.cache (URLClassificationCache.set url data result now c))).
Proof.
  intros H. rewrite set_cache. apply JSMap_set_NoDup.
  destruct (_ <=? _)%nat; [now apply JSMap_tl_NoDup | exact H].
Qed.

Lemma applySets_keys_NoDup ops c :
  NoDup (JSMap.keys (URLClassificationCache.cache c)) ->
  NoDup (JSMap.keys (URLClassificationCache.cache (applySets ops c))).
Proof.
  revert c. induction ops as [|op ops IH]; intros c H; [exact H |].
  simpl. apply IH. now apply set_keys_NoDup.
Qed.

Lemma get_stats url data c :
  let r := URLClassificationCache.get url data c in
  URLClassificationCache.totalRequests (URLClassificationCache.stats (snd r)) =
    S (URLClassificationCache.totalRequests (URLClassificationCache.stats c)) /\
  URLClassificationCache.hits (URLClassificationCache.stats (snd r)) =
    (match fst r with
     | Some _ => S (URLClassificationCache.hits (URLClassificationCache.stats c))
     | None => URLClassificationCache.hits (URLClassificationCache.stats c)
     end) /\
  URLClassificationCache.misses (URLClassificationCache.stats (snd r)) =
    (match fst r with
     | Some _ => URLClassificationCache.misses (URLClassificationCache.stats c)
     | None => S (URLClassificationCache.misses (URLClassificationCache.stats c))
     end).
Proof.
  unfold URLClassificationCache.get, JSMap.has.
  destruct (JSMap.get _ _); simpl; repeat split; reflexivity.
Qed.

(** X1: In every state the script reaches, the counters add up and every entry
    of the table was written after a miss. *)
Theorem X_cache_counters (c : URLClassificationCache.t) :
  reachable c ->
  URLClassificationCache.hits (URLClassificationCache.stats c) +
  URLClassificationCache.misses (URLClassificationCache.stats c) =
  URLClassificationCache.totalRequests (URLClassificationCache.stats c) /\
  JSMap.size (URLClassificationCache.cache c) <=
  URLClassificationCache.misses (URLClassificationCache.stats c).
Proof.
  induction 1 as [| c url data now _ [IHs IHm] | c _ _].
  - simpl. lia.
  - destruct url as [| url |]; try (simpl; split; assumption).
    rewrite shouldInterceptUrl_cases.
    destruct (get_stats url (defaultData data) c) as [Ht [Hh Hm]].
    pose proof (get_cache url (defaultData data) c) as Hc.
    destruct (fst (URLClassificationCache.get url (defaultData data) c)); simpl snd.
    + rewrite Hc, Ht, Hh, Hm. lia.
    + rewrite set_cache. simpl. rewrite Hc, Ht, Hh, Hm. split; [lia |].
      match goal with
      | |- JSMap.size (JSMap.set ?m ?k ?v) <= _ =>
          pose proof (JSMap_set_size_le m k v) as Hs
      end.
      destruct (_ <=? _)%nat.
      * destruct (URLClassificationCache.cache c); simpl in *; unfold JSMap.size in *; simpl in *; lia.
      * lia.
  - simpl. lia.
Qed.

Lemma X_cache_counters_witness :
  let c := snd (shouldInterceptUrl (JString "https://example.com/a") JUndefined 2
             (snd (shouldInterceptUrl (JString "https://example.com/a") JUndefined 1
                     URLClassificationCache.init))) in
  reachable c /\
  URLClassificationCache.hits (URLClassificationCache.stats c) +
  URLClassificationCache.misses (URLClassificationCache.stats c) =
  URLClassificationCache.totalRequests (URLClassificationCache.stats c) /\
  JSMap.size (URLClassificationCache.cache c) <=
  URLClassificationCache.misses (URLClassificationCache.stats c).
Proof.
  cbv zeta.
  assert (Hr : reachable
            (snd (shouldInterceptUrl (JString "https://example.com/a") JUndefined 2
               (snd (shouldInterceptUrl (JString "https://example.com/a") JUndefined 1
                       URLClassificationCache.init)))))
    by exact (reachable_intercept _ _ _ _ (reachable_intercept _ _ _ _ reachable_init)).
  split; [exact Hr |].
  exact (X_cache_counters _ Hr).
Defined.

Lemma lastWithKey_snoc key ops op :
  lastWithKey key (ops ++ [op]) =
  if String.eqb (keyOf op) key then Some op else lastWithKey key ops.
Proof. unfold lastWithKey. rewrite rev_app_distr. reflexivity. Qed.

Lemma applySets_snoc ops op c : applySets (ops ++ [op]) c = applySet (applySets ops c) op.
Proof. unfold applySets. now rewrite fold_left_app. Qed.

(** X2: A lookup never returns a stale or foreign entry: after any sequence of
    [set] calls on the initial cache, what [get] finds under a key is the
    entry of the latest call that wrote under that key. *)
Theorem X_get_returns_latest_set (ops : list SetCall) (url : string) (data : js_value)
    (e : CacheEntry) :
  fst (URLClassificationCache.get url data (applySets ops URLClassificationCache.init)) = Some e ->
  option_map entryOf
    (lastWithKey (URLClassificationCache.generateCacheKey url data) ops) = Some e.
Proof.
  rewrite get_result. set (key := URLClassificationCache.generateCacheKey url data).
  revert e. induction ops as [|op ops IH] using rev_ind; intros e H; [discriminate |].
  rewrite applySets_snoc in H. unfold applySet in H.
  rewrite set_cache, JSMap_get_set in H.
  rewrite lastWithKey_snoc. fold (keyOf op) in H.
  destruct (String.eqb (keyOf op) key); [exact H |].
  apply IH.
  destruct (_ <=? _)%nat; [| exact H].
  apply JSMap_get_tl; [| exact H].
  apply applySets_keys_NoDup. constructor.
Qed.

Lemma X_get_returns_latest_set_witness :
  let d1 := {| shouldIntercept := true; reason := "first" |} in
  let d2 := {| shouldIntercept := false; reason := "second" |} in
  let ops := [mkSetCall "https://a.example/1" JUndefined d1 1;
              mkSetCall "https://a.example/2" JUndefined d1 2;
              mkSetCall "https://a.example/1" JUndefined d2 3] in
  let e := {| entry_shouldIntercept := false; entry_reason := "second";
              entry_timestamp := 3; entry_url := "https://a.example/1" |} in
  fst (URLClassificationCache.get "https://a.example/1" JUndefined
         (applySets ops URLClassificationCache.init)) = Some e /\
  option_map entryOf
    (lastWithKey (URLClassificationCache.generateCacheKey "https://a.example/1" JUndefined) ops)
  = Some e.
Proof.
  cbv zeta. split; [vm_compute; reflexivity |].
  apply X_get_returns_latest_set. vm_compute; reflexivity.
Defined.

(** X3: Below the bound, [set] on a key that is present replaces its entry
    where it stands: the keys and their order stay the same and every other
    key keeps its entry. *)
Theorem X_set_updates_in_place (url : string) (data : js_value) (result : Decision) (now : Z)
    (c : URLClassificationCache.t) :
  JSMap.size (URLClassificationCache.cache c) < URLClassificationCache.maxCacheSize c ->
  JSMap.has (URLClassificationCache.cache c) (URLClassificationCache.generateCacheKey url data)
    = true ->
  let c' := URLClassificationCache.set url data result now c in
  JSMap.keys (URLClassificationCache.cache c') = JSMap.keys (URLClassificationCache.cache c) /\
  forall k, k <> URLClassificationCache.generateCacheKey url data ->
       JSMap.get (URLClassificationCache.cache c') k = JSMap.get (URLClassificationCache.cache c) k.
Proof.
  intros Hlt Hhas c'. subst c'. rewrite set_cache.
  apply Nat.leb_gt in Hlt. rewrite Hlt. split.
  - rewrite JSMap_keys_set, Hhas. reflexivity.
  - intros k Hk. rewrite JSMap_get_set.
    destruct (String.eqb _ k) eqn:E; [apply String.eqb_eq in E; congruence | reflexivity].
Qed.

Lemma X_set_updates_in_place_witness :
  let d := {| shouldIntercept := true; reason := "r" |} in
  let c := applySets [mkSetCall "https://a.example/1" JUndefined d 1;
                      mkSetCall "https://a.example/2" JUndefined d 2]
             URLClassificationCache.init in
  let c' := URLClassificationCache.set "https://a.example/1" JUndefined d 3 c in
  JSMap.size (URLClassificationCache.cache c) < URLClassificationCache.maxCacheSize c /\
  JSMap.has (URLClassificationCache.cache c)
    (URLClassificationCache.generateCacheKey "https://a.example/1" JUndefined) = true /\
  JSMap.keys (URLClassificationCache.cache c') = JSMap.keys (URLClassificationCache.cache c).
Proof.
  cbv zeta. split; [vm_compute; lia |]. split; [vm_compute; reflexivity |].
  apply X_set_updates_in_place; [vm_compute; lia | vm_compute; reflexivity].
Defined.

(** X4: At the bound, [set] drops the oldest key before it writes, also when
    the key it writes is already in the table: a key found among the
    remaining ones keeps its place and the table shrinks by one; any other
    key, the dropped one included, goes to the end. *)
Theorem X_set_at_bound_evicts_first (url : string) (data : js_value) (result : Decision)
    (now : Z) (c : URLClassificationCache.t) :
  URLClassificationCache.maxCacheSize c <= JSMap.size (URLClassificationCache.cache c) ->
  let key := URLClassificationCache.generateCacheKey url data in
  let c' := URLClassificationCache.set url data result now c in
  JSMap.keys (URLClassificationCache.cache c') =
  if JSMap.has (tl (URLClassificationCache.cache c)) key
  then tl (JSMap.keys (URLClassificationCache.cache c))
  else (tl (JSMap.keys (URLClassificationCache.cache c)) ++ [key])%list.
Proof.
  intros Hle key c'. subst key c'. rewrite set_cache.
  apply Nat.leb_le in Hle. rewrite Hle.
  rewrite JSMap_keys_set, JSMap_keys_tl. reflexivity.
Qed.

Lemma X_set_at_bound_evicts_first_witness :
  let d := {| shouldIntercept := true; reason := "r" |} in
  let c0 := {| URLClassificationCache.cache := JSMap.empty;
               URLClassificationCache.stats := URLClassificationCache.stats URLClassificationCache.init;
               URLClassificationCache.maxCacheSize := 2 |} in
  let c := applySets [mkSetCall "https://a.example/1" JUndefined d 1;
                      mkSetCall "https://a.example/2" JUndefined d 2] c0 in
  let c' := URLClassificationCache.set "https://a.example/2" JUndefined d 3 c in
  URLClassificationCache.maxCacheSize c <= JSMap.size (URLClassificationCache.cache c) /\
  JSMap.keys (URLClassificationCache.cache c) = ["https://a.example/1"; "https://a.example/2"] /\
  JSMap.keys (URLClassificationCache.cache c') = ["https://a.example/2"].
Proof.
  cbv zeta. split; [vm_compute; lia |]. split; [vm_compute; reflexivity |].
  rewrite X_set_at_bound_evicts_first; [vm_compute; reflexivity | vm_compute; lia].
Defined.

Lemma charCodes_app (a b : string) : charCodes (a ++ b) = (charCodes a ++ charCodes b)%list.
Proof. induction a as [|x a IH]; simpl; [reflexivity | now rewrite IH]. Qed.

Lemma charCodes_length (s : string) : List.length (charCodes s) = String.length s.
Proof. induction s as [|x s IH]; simpl; [reflexivity | now rewrite IH]. Qed.

(** X5: The cache key reads at most the first 100 characters of a string
    payload: two payloads that agree on their first 100 characters get the
    same key for the same address. *)
Theorem X_cache_key_reads_100_chars (url p s1 s2 : string) :
  String.length p = 100 ->
  URLClassificationCache.generateCacheKey url (JString (p ++ s1)) =
  URLClassificationCache.generateCacheKey url (JString (p ++ s2)).
Proof.
  intros Hp. unfold URLClassificationCache.generateCacheKey.
  rewrite !string_app_length, Hp. simpl (0 <? _)%nat.
  rewrite !charCodes_app, !firstn_app, !charCodes_length, Hp. simpl (100 - 100).
  simpl (firstn 0 _). reflexivity.
Qed.

Lemma X_cache_key_reads_100_chars_witness :
  let p := "0123456789012345678901234567890123456789012345678901234567890123456789012345678901234567890123456789" in
  String.length p = 100 /\
  URLClassificationCache.generateCacheKey "https://a.example/" (JString (p ++ "left")) =
  URLClassificationCache.generateCacheKey "https://a.example/" (JString (p ++ "right")).
Proof.
  cbv zeta. split; [reflexivity |].
  apply X_cache_key_reads_100_chars. reflexivity.
Defined.

Lemma shouldInterceptUrl_stores url data now c :
  exists e,
    JSMap.get (URLClassificationCache.cache (snd (shouldInterceptUrl (JString url) data now c)))
      (URLClassificationCache.generateCacheKey url (defaultData data)) = Some e /\
    entry_shouldIntercept e = fst (shouldInterceptUrl (JString url) data now c).
Proof.
  rewrite shouldInterceptUrl_cases.
  pose proof (get_result url (defaultData data) c) as Hres.
  pose proof (get_cache url (defaultData data) c) as Hc.
  destruct (fst (URLClassificationCache.get url (defaultData data) c)) as [e|]; simpl.
  - exists e. rewrite Hc. split; [now symmetry | reflexivity].
  - eexists. rewrite JSMap_get_set_same. split; reflexivity.
Qed.

(** X6: A call whose cache key equals that of the call before it is answered
    from the cache: it returns the same answer, leaves the table as it is
    and counts one hit and no miss.  This holds from every state, and in
    particular for the same address and payload. *)
Theorem X_repeated_call_is_hit (url1 url2 : string) (d1 d2 : js_value) (now1 now2 : Z)
    (c : URLClassificationCache.t) :
  URLClassificationCache.generateCacheKey url1 (defaultData d1) =
  URLClassificationCache.generateCacheKey url2 (defaultData d2) ->
  let r1 := shouldInterceptUrl (JString url1) d1 now1 c in
  let r2 := shouldInterceptUrl (JString url2) d2 now2 (snd r1) in
  fst r2 = fst r1 /\
  URLClassificationCache.cache (snd r2) = URLClassificationCache.cache (snd r1) /\
  URLClassificationCache.hits (URLClassificationCache.stats (snd r2)) =
    S (URLClassificationCache.hits (URLClassificationCache.stats (snd r1))) /\
  URLClassificationCache.misses (URLClassificationCache.stats (snd r2)) =
    URLClassificationCache.misses (URLClassificationCache.stats (snd r1)).
Proof.
  intros Hkey r1 r2. subst r2.
  destruct (shouldInterceptUrl_stores url1 d1 now1 c) as [e [Hget He]].
  fold r1 in Hget, He. rewrite Hkey in Hget.
  rewrite shouldInterceptUrl_cases.
  pose proof (get_result url2 (defaultData d2) (snd r1)) as Hres.
  pose proof (get_cache url2 (defaultData d2) (snd r1)) as Hc.
  destruct (get_stats url2 (defaultData d2) (snd r1)) as [_ [Hh Hm]].
  rewrite Hget in Hres. rewrite Hres in Hh, Hm. rewrite Hres. simpl.
  repeat split; assumption.
Qed.

Lemma X_repeated_call_is_hit_witness :
  let r1 := shouldInterceptUrl (JString "https://example.com/analytics") (JString "a=1") 1
              URLClassificationCache.init in
  let r2 := shouldInterceptUrl (JString "https://example.com/analytics") (JString "a=1") 2
              (snd r1) in
  URLClassificationCache.generateCacheKey "https://example.com/analytics"
    (defaultData (JString "a=1")) =
  URLClassificationCache.generateCacheKey "https://example.com/analytics"
    (defaultData (JString "a=1")) /\
  fst r2 = fst r1 /\
  URLClassificationCache.cache (snd r2) = URLClassificationCache.cache (snd r1).
Proof.
  cbv zeta. split; [reflexivity |].
  refine (let H := X_repeated_call_is_hit "https://example.com/analytics"
                     "https://example.com/analytics" (JString "a=1") (JString "a=1") 1 2
                     URLClassificationCache.init _ in conj (proj1 H) (proj1 (proj2 H))).
  reflexivity.
Defined.

(** X7: The decision in closed form: in every state the script reaches,
    whatever the payload, the time and the contents of the cache,
    [shouldInterceptUrl] intercepts exactly the addresses that contain a
    keyword of [INTERCEPT_PATTERNS], no essential endpoint and no
    important-URL marker.  The code-indexing table has no influence. *)
Theorem X_decision_closed_form (url : string) (data : js_value) (now : Z)
    (c : URLClassificationCache.t) :
  reachable c ->
  fst (shouldInterceptUrl (JString url) data now c) =
  negb (some (fun p => includes (toLowerCase url) (toLowerCase p)) ESSENTIAL_ENDPOINTS) &&
  some (fun p => includes (toLowerCase url) (toLowerCase p)) INTERCEPT_PATTERNS &&
  negb (some (fun p => includes (toLowerCase url) p) importantPatterns).
Proof. intros Hr. now rewrite (shouldInterceptUrl_reachable url data now c Hr). Qed.

Lemma X_decision_closed_form_witness :
  let url := "https://example.com/v2/session_id" in
  let c := snd (shouldInterceptUrl (JString url) JUndefined 1 URLClassificationCache.init) in
  reachable c /\
  fst (shouldInterceptUrl (JString url) (JString "x") 2 c) =
  negb (some (fun p => includes (toLowerCase url) (toLowerCase p)) ESSENTIAL_ENDPOINTS) &&
  some (fun p => includes (toLowerCase url) (toLowerCase p)) INTERCEPT_PATTERNS &&
  negb (some (fun p => includes (toLowerCase url) p) importantPatterns).
Proof.
  cbv zeta. split; [exact (reachable_intercept _ _ _ _ reachable_init) |].
  apply X_decision_closed_form. exact (reachable_intercept _ _ _ _ reachable_init).
Defined.

(** ** Session identifiers *)

Ltac bool_arith :=
  repeat match goal with
         | H : _ |- _ =>
             first [rewrite orb_true_iff in H | rewrite andb_true_iff in H |
                    rewrite Nat.leb_le in H | rewrite Nat.eqb_eq in H]
         end;
  repeat first [rewrite orb_true_iff | rewrite andb_true_iff |
                rewrite Nat.leb_le | rewrite Nat.eqb_eq];
  lia.

Lemma inClass_isIdChar (cl : CharClass) (c : ascii) : inClass cl c = true -> isIdChar c = true.
Proof.
  destruct cl; simpl.
  - unfold isHexDigitCI, isIdChar. intros H. bool_arith.
  - intros H. apply Ascii.eqb_eq in H. subst c. reflexivity.
Qed.

Lemma matchClasses_token (cls : list CharClass) (s : string) :
  matchClasses cls s = true -> String.length s = List.length cls /\ allIdChars s = true.
Proof.
  revert s. induction cls as [|cl cls IH]; intros [|c s]; simpl; try discriminate.
  - auto.
  - intros H. apply andb_prop in H as [Hc Hs].
    destruct (IH s Hs) as [Hl Ha]. rewrite Hl, Ha, (inClass_isIdChar cl c Hc). auto.
Qed.

(** X8: The UUID test of [isSessionId] adds nothing: a value is taken for a
    session id exactly when it is a string of at least 16 characters, all
    of them letters, digits, [_] or [-]. *)
Theorem X_isSessionId_is_long_token (value : js_value) :
  isSessionId value =
  match value with
  | JString s => (16 <=? String.length s)%nat && allIdChars s
  | _ => false
  end.
Proof.
  destruct value as [| s |]; try reflexivity.
  unfold isSessionId, idTokenPattern.
  destruct (matchClasses uuidPattern s) eqn:E.
  - apply matchClasses_token in E as [Hl Ha]. rewrite Hl, Ha. reflexivity.
  - destruct (16 <=? String.length s)%nat eqn:E16; [| reflexivity].
    apply Nat.leb_le in E16.
    destruct (String.length s =? 0)%nat eqn:E0; [apply Nat.eqb_eq in E0; lia |].
    simpl. destruct (allIdChars s); reflexivity.
Qed.

Lemma charsAt_hexChar (i : N) :
  (i < 16)%N ->
  charsAt "0123456789abcdef" i = String (hexChar i) EmptyString /\
  isHexDigit (hexChar i) = true.
Proof.
  intros H.
  assert (Hc : In i [0; 1; 2; 3; 4; 5; 6; 7; 8; 9; 10; 11; 12; 13; 14; 15]%N) by (simpl; lia).
  simpl in Hc.
  repeat (destruct Hc as [<- | Hc]; [split; reflexivity |]). contradiction.
Qed.

Lemma floorTimes_lt (r : RandomDouble) (n : N) :
  inUnitInterval r -> (0 < n)%N -> (floorTimes r n < n)%N.
Proof.
  unfold inUnitInterval, floorTimes. intros H Hn.
  apply N.Div0.div_lt_upper_bound. nia.
Qed.

Lemma isHexDigit_CI (c : ascii) : isHexDigit c = true -> isHexDigitCI c = true.
Proof. unfold isHexDigit, isHexDigitCI. intros H. now rewrite H. Qed.

Lemma substring_0_0 (s : string) : String.substring 0 0 s = EmptyString.
Proof. destruct s; reflexivity. Qed.

Lemma removeDashes_keeps (c : ascii) (s : string) :
  Ascii.eqb c "-" = false -> removeDashes (String c s) = String c (removeDashes s).
Proof. intros H. simpl. now rewrite H. Qed.

Lemma uuid_seed_prefix (n : nat) (rest : list CharClass) (s : string) :
  matchClasses (repeat HexDigitCI n ++ rest)%list s = true ->
  substring0 n (removeDashes s) = substring0 n s.
Proof.
  unfold substring0. revert s. induction n as [|n IH]; intros s H.
  - now rewrite !substring_0_0.
  - destruct s as [|c s]; [discriminate |].
    cbn [repeat app matchClasses inClass] in H. apply andb_prop in H as [Hc Hs].
    assert (Hnd : Ascii.eqb c "-" = false).
    { destruct (Ascii.eqb c "-") eqn:E; [| reflexivity].
      apply Ascii.eqb_eq in E. subst c. discriminate. }
    rewrite removeDashes_keeps by exact Hnd.
    cbn [String.substring]. now rewrite (IH s Hs).
Qed.

(** The identifier written out: thirty hexadecimal digits drawn at random,
    the version digit 4 and a variant digit among 8, 9, a, b. *)
Lemma generateUUID_explicit (rnd : nat -> RandomDouble) (k : nat) :
  (forall j, inUnitInterval (rnd j)) ->
  exists (h : nat -> ascii) (v : ascii),
    (forall j, isHexDigit (h j) = true) /\
    In v ["8"; "9"; "a"; "b"]%char /\
    generateUUID rnd k = (uuidText h v, k + 31).
Proof.
  intros Hr.
  exists (fun j => hexChar (floorTimes (rnd (j + k)) 16)),
         (hexChar (8 + floorTimes (rnd (15 + k)) 4)).
  assert (H16 : forall j, charsAt "0123456789abcdef" (floorTimes (rnd j) 16) =
                          String (hexChar (floorTimes (rnd j) 16)) EmptyString).
  { intros j. apply charsAt_hexChar, floorTimes_lt; [apply Hr | lia]. }
  assert (H4 : forall j, (floorTimes (rnd j) 4 < 4)%N).
  { intros j. apply floorTimes_lt; [apply Hr | lia]. }
  assert (Hv : forall j, charsAt "0123456789abcdef" (8 + floorTimes (rnd j) 4) =
                         String (hexChar (8 + floorTimes (rnd j) 4)) EmptyString).
  { intros j. apply charsAt_hexChar. specialize (H4 j). lia. }
  split; [| split].
  - intros j. apply charsAt_hexChar, floorTimes_lt; [apply Hr | lia].
  - specialize (H4 (15 + k)).
    assert (Hc : In (floorTimes (rnd (15 + k)) 4) [0; 1; 2; 3]%N) by (cbn [In]; lia).
    cbn [In] in Hc. destruct Hc as [<- | [<- | [<- | [<- | []]]]]; simpl; auto.
  - unfold generateUUID, uuidText. cbv [seq fold_left generateUUID_step Nat.eqb orb].
    rewrite !H16, !Hv.
    cbv beta. cbn [String.append Nat.add].
    apply f_equal2; [reflexivity | lia].
Qed.

Lemma uuidText_pattern (h : nat -> ascii) (v : ascii) :
  (forall j, isHexDigit (h j) = true) -> In v ["8"; "9"; "a"; "b"]%char ->
  matchClasses uuidPattern (uuidText h v) = true.
Proof.
  intros Hh Hv.
  assert (Hm : forall j, isHexDigitCI (h j) = true) by (intros j; apply isHexDigit_CI, Hh).
  assert (Hvm : isHexDigitCI v = true).
  { cbn [In] in Hv. destruct Hv as [<- | [<- | [<- | [<- | []]]]]; reflexivity. }
  unfold uuidText.
  cbn [matchClasses uuidPattern repeat app inClass]. rewrite !Hm, Hvm. reflexivity.
Qed.

Lemma uuidText_seed_hex (h : nat -> ascii) (v : ascii) :
  (forall j, isHexDigit (h j) = true) -> allHex (substring0 8 (uuidText h v)) = true.
Proof.
  intros Hh. unfold uuidText.
  cbn [substring0 String.substring allHex]. rewrite !Hh. reflexivity.
Qed.

Lemma uuidText_positions (h : nat -> ascii) (v : ascii) :
  String.length (uuidText h v) = 36 /\
  String.get 14 (uuidText h v) = Some "4"%char /\
  String.get 19 (uuidText h v) = Some v.
Proof.
  unfold uuidText. split; [cbn [String.length]; reflexivity |].
  split; cbn [String.get]; reflexivity.
Qed.

(** X9: For any values [Math.random()] can return, [generateUUID] draws
    exactly 31 of them and returns 36 characters in the form of a version-4
    UUID: it matches the UUID pattern of [isSessionId], so it is taken for
    a session id, its character 14 is [4], its character 19 is one of
    [8 9 a b], and the seed [calculateHash] derives from it (dashes
    removed, first eight characters) is its first eight characters, all
    hexadecimal digits. *)
Theorem X_generateUUID_shape (rnd : nat -> RandomDouble) (k : nat) :
  (forall j, inUnitInterval (rnd j)) ->
  let id := fst (generateUUID rnd k) in
  snd (generateUUID rnd k) = k + 31 /\
  String.length id = 36 /\
  matchClasses uuidPattern id = true /\
  isSessionId (JString id) = true /\
  String.get 14 id = Some "4"%char /\
  (exists v, String.get 19 id = Some v /\ In v ["8"; "9"; "a"; "b"]%char) /\
  substring0 8 (removeDashes id) = substring0 8 id /\
  allHex (substring0 8 id) = true.
Proof.
  intros Hr id. subst id.
  destruct (generateUUID_explicit rnd k Hr) as [h [v [Hh [Hv ->]]]].
  cbn [fst snd].
  pose proof (uuidText_pattern h v Hh Hv) as Hpat.
  destruct (uuidText_positions h v) as [Hlen [H14 H19]].
  split; [reflexivity |]. split; [exact Hlen |]. split; [exact Hpat |].
  split; [unfold isSessionId; now rewrite Hpat |].
  split; [exact H14 |].
  split; [exists v; split; [exact H19 | exact Hv] |].
  split; [exact (uuid_seed_prefix 8 _ _ Hpat) | exact (uuidText_seed_hex h v Hh)].
Qed.

Lemma X_generateUUID_shape_witness :
  let rnd := fun j : nat => {| numerator := N.of_nat (j * 37 + 5) mod 64; exponent := 6 |} in
  (forall j, inUnitInterval (rnd j)) /\
  fst (generateUUID rnd 0) = "1a3d6f82-b4d7-4092-b5e7-1a3c6f81b4d6" /\
  isSessionId (JString (fst (generateUUID rnd 0))) = true.
Proof.
  cbv zeta.
  assert (Hr : forall j : nat,
             inUnitInterval {| numerator := N.of_nat (j * 37 + 5) mod 64; exponent := 6 |}).
  { intros j. unfold inUnitInterval. cbn [numerator exponent]. apply N.mod_lt. discriminate. }
  split; [exact Hr |]. split; [vm_compute; reflexivity |].
  exact (proj1 (proj2 (proj2 (proj2
           (X_generateUUID_shape
              (fun j : nat => {| numerator := N.of_nat (j * 37 + 5) mod 64; exponent := 6 |})
              0 Hr))))).
Defined.

(** ** More about the hash synthesizer *)

Lemma of_lu_hexDigitCons (x : N) (d : Hexadecimal.uint) :
  (x < 16)%N ->
  HexadecimalPos.Unsigned.of_lu (hexDigitCons x d) =
  (x + 16 * HexadecimalPos.Unsigned.of_lu d)%N.
Proof.
  intros H.
  assert (Hc : In x [0; 1; 2; 3; 4; 5; 6; 7; 8; 9; 10; 11; 12; 13; 14; 15]%N) by (cbn [In]; lia).
  cbn [In] in Hc.
  repeat (destruct Hc as [<- | Hc]; [reflexivity |]). contradiction.
Qed.

Lemma nb_digits_hexDigitCons (x : N) (d : Hexadecimal.uint) :
  Hexadecimal.nb_digits (hexDigitCons x d) = S (Hexadecimal.nb_digits d).
Proof.
  unfold hexDigitCons.
  repeat match goal with
         | |- context [match ?p with _ => _ end] => destruct p
         end; reflexivity.
Qed.

Lemma of_lu_littleHex (k : nat) (n : N) :
  HexadecimalPos.Unsigned.of_lu (littleHex k n) = (n mod 16 ^ N.of_nat k)%N.
Proof.
  revert n. induction k as [|k IH]; intros n.
  - simpl. now rewrite N.mod_1_r.
  - cbn [littleHex]. rewrite of_lu_hexDigitCons by (apply N.mod_lt; lia).
    rewrite IH, Nat2N.inj_succ, N.pow_succ_r'.
    rewrite N.Div0.mod_mul_r. reflexivity.
Qed.

Lemma nb_digits_littleHex (k : nat) (n : N) : Hexadecimal.nb_digits (littleHex k n) = k.
Proof.
  revert n. induction k as [|k IH]; intros n; [reflexivity |].
  cbn [littleHex]. now rewrite nb_digits_hexDigitCons, IH.
Qed.

(** A number below [16 ^ k] is written with at most [k] hexadecimal
    digits. *)
Lemma to_hex_uint_nb_digits (k : nat) (n : N) :
  0 < k -> (n < 16 ^ N.of_nat k)%N ->
  Hexadecimal.nb_digits (N.to_hex_uint n) <= k.
Proof.
  intros Hk Hn.
  assert (Hval : N.of_hex_uint (Hexadecimal.rev (littleHex k n)) = n).
  { unfold N.of_hex_uint. rewrite HexadecimalPos.Unsigned.of_lu_rev, of_lu_littleHex.
    now apply N.mod_small. }
  rewrite <- Hval at 1. rewrite HexadecimalN.Unsigned.to_of.
  assert (Hne : Hexadecimal.rev (littleHex k n) <> Hexadecimal.Nil).
  { apply HexadecimalFacts.nb_digits_n0.
    rewrite HexadecimalFacts.nb_digits_rev, nb_digits_littleHex. lia. }
  pose proof (HexadecimalFacts.nb_digits_unorm _ Hne) as H.
  rewrite HexadecimalFacts.nb_digits_rev, nb_digits_littleHex in H. exact H.
Qed.

Lemma hex_string_length (d : Hexadecimal.uint) :
  String.length (HexadecimalString.NilEmpty.string_of_uint d) = Hexadecimal.nb_digits d.
Proof. induction d; simpl; auto. Qed.

Lemma Number_toString16_length (z : Z) :
  (0 <= z < 4294967296)%Z -> 1 <= String.length (Number_toString16 z) <= 8.
Proof.
  intros Hz. unfold Number_toString16.
  destruct (z <? 0)%Z eqn:E; [apply Z.ltb_lt in E; lia |].
  pose proof (to_hex_uint_nb_digits 8 (Z.abs_N z)) as H.
  assert (Hb : (Z.abs_N z < 16 ^ N.of_nat 8)%N).
  { change (16 ^ N.of_nat 8)%N with 4294967296%N. lia. }
  specialize (H ltac:(lia) Hb).
  unfold HexadecimalString.NilZero.string_of_uint.
  destruct (N.to_hex_uint (Z.abs_N z)) eqn:Ed;
    try (rewrite <- Ed in *; rewrite hex_string_length; rewrite Ed in *; simpl in *; lia).
  simpl. lia.
Qed.

Lemma toInt32_range (z : Z) : (-2147483648 <= toInt32 z < 2147483648)%Z.
Proof.
  unfold toInt32.
  pose proof (Z.mod_pos_bound (z + 2147483648) 4294967296 ltac:(lia)). lia.
Qed.

Lemma fold_hashStep_range (l : list Z) (acc : Z) :
  (-2147483648 <= acc < 2147483648)%Z ->
  (-2147483648 <= fold_left hashStep l acc < 2147483648)%Z.
Proof.
  revert acc. induction l as [|c l IH]; intros acc Hacc; [exact Hacc |].
  simpl. apply IH. unfold hashStep. apply toInt32_range.
Qed.

Lemma extensionDigit_single (seed : string) (index : Z) (p : nat) :
  exists c, extensionDigit seed index p = String c EmptyString.
Proof.
  unfold extensionDigit.
  set (a := xorOperand (parseInt16 _)). set (b := xorOperand (parseInt16 _)).
  assert (Hab : (0 <= Z.lxor a b < 16)%Z) by (apply lxor_nibble; apply xorOperand_nibble).
  pose proof (Number_toString16_nibble _ Hab) as Hl.
  destruct (Number_toString16 (Z.lxor a b)) as [|c [|c' s]]; simpl in Hl; try lia.
  now exists c.
Qed.

Lemma extensionDigits_length (seed : string) (index : Z) (p n : nat) :
  String.length (extensionDigits seed index p n) = n.
Proof.
  revert p. induction n as [|n IH]; intros p; [reflexivity |].
  cbn [extensionDigits]. destruct (extensionDigit_single seed index p) as [c ->].
  simpl. now rewrite IH.
Qed.

Lemma extensionDigits_get (seed : string) (index : Z) (p n q : nat) :
  q < n ->
  String.get q (extensionDigits seed index p n) =
  String.get 0 (extensionDigit seed index (p + q)).
Proof.
  revert p q. induction n as [|n IH]; intros p q Hq; [lia |].
  cbn [extensionDigits]. destruct (extensionDigit_single seed index p) as [c Hc].
  rewrite Hc. destruct q as [|q].
  - rewrite Nat.add_0_r, Hc. reflexivity.
  - simpl. rewrite IH by lia. f_equal. f_equal. lia.
Qed.

Lemma extendLoop_explicit (fuel : nat) (seed : string) (index : Z) (ext : string) :
  64 - String.length ext <= fuel ->
  FeatureVectorSpoofer.extendLoop fuel seed index ext =
  Some (ext ++ extensionDigits seed index (String.length ext) (64 - String.length ext)).
Proof.
  revert ext. induction fuel as [|fuel IH]; intros ext Hfuel.
  - cbn [FeatureVectorSpoofer.extendLoop].
    destruct (String.length ext <? 64)%nat eqn:E.
    + apply Nat.ltb_lt in E. lia.
    + apply Nat.ltb_ge in E. replace (64 - String.length ext) with 0 by lia.
      cbn [extensionDigits]. now rewrite string_app_nil_r.
  - cbn [FeatureVectorSpoofer.extendLoop].
    destruct (String.length ext <? 64)%nat eqn:E.
    + apply Nat.ltb_lt in E.
      change (FeatureVectorSpoofer.extendStep seed index ext)
        with (ext ++ extensionDigit seed index (String.length ext)).
      destruct (extensionDigit_single seed index (String.length ext)) as [c Hc].
      rewrite IH; rewrite string_app_length, Hc; simpl String.length; [| lia].
      replace (64 - String.length ext) with (S (64 - (String.length ext + 1))) by lia.
      cbn [extensionDigits]. rewrite Hc, string_app_assoc.
      replace (S (String.length ext)) with (String.length ext + 1) by lia. reflexivity.
    + apply Nat.ltb_ge in E. replace (64 - String.length ext) with 0 by lia.
      cbn [extensionDigits]. now rewrite string_app_nil_r.
Qed.

Lemma substring0_all (n : nat) (s : string) :
  String.length s <= n -> substring0 n s = s.
Proof.
  unfold substring0. revert s; induction n as [|n IH]; intros s H.
  - destruct s; [reflexivity | simpl in H; lia].
  - destruct s as [|c s]; [reflexivity |]. simpl in *. rewrite IH; [reflexivity | lia].
Qed.

Lemma string_get_app (a b : string) (p : nat) :
  String.get p (a ++ b) =
  if (p <? String.length a)%nat then String.get p a else String.get (p - String.length a) b.
Proof.
  revert p. induction a as [|x a IH]; intros p.
  - simpl. now rewrite Nat.sub_0_r.
  - destruct p as [|p]; [reflexivity |]. simpl. rewrite IH.
    change (S p <? S (String.length a))%nat with (p <? String.length a)%nat. reflexivity.
Qed.

Lemma string_get_beyond (s : string) (p : nat) : String.length s <= p -> String.get p s = None.
Proof.
  revert p. induction s as [|x s IH]; intros p H; [destruct p; reflexivity |].
  destruct p as [|p]; simpl in *; [lia |]. apply IH. lia.
Qed.

(** The result of [calculateHash] written out: the hexadecimal text of the
    absolute value of the rolling hash, of at most 8 digits, followed by
    the digits of the extension. *)
Lemma calculateHash_explicit (Data : Type) (JSON_stringify : Data -> string)
    (sm : SessionManager.t) (data : Data) (index : Z) :
  exists baseHash,
    1 <= String.length baseHash <= 8 /\
    FeatureVectorSpoofer.calculateHash Data JSON_stringify sm data index =
    Some (baseHash ++
          extensionDigits (substring0 8 (removeDashes (SessionManager.getMainSessionId sm)))
            index (String.length baseHash) (64 - String.length baseHash)).
Proof.
  unfold FeatureVectorSpoofer.calculateHash.
  set (hash := fold_left hashStep _ 0%Z).
  set (seed := substring0 8 _).
  assert (Hr : (-2147483648 <= hash < 2147483648)%Z)
    by (apply fold_hashStep_range; lia).
  pose proof (Number_toString16_length (Z.abs hash) ltac:(lia)) as Hl.
  exists (Number_toString16 (Z.abs hash)). split; [exact Hl |].
  rewrite extendLoop_explicit by lia.
  rewrite substring0_all; [reflexivity |].
  rewrite string_app_length, extensionDigits_length. lia.
Qed.

(** X10: At most the first eight characters of the result of [calculateHash]
    depend on the data: from position 8 on, two results for the same
    session and index agree, whatever the two seed data are.  The digit at
    such a position [p] below 64 is the one computed from the session
    seed, the index and [p]. *)
Theorem X_hash_tail_ignores_data (Data : Type) (JSON_stringify : Data -> string)
    (sm : SessionManager.t) (data1 data2 : Data) (index : Z) (p : nat) :
  8 <= p ->
  option_map (String.get p)
    (FeatureVectorSpoofer.calculateHash Data JSON_stringify sm data1 index) =
  option_map (String.get p)
    (FeatureVectorSpoofer.calculateHash Data JSON_stringify sm data2 index) /\
  (p < 64 ->
   option_map (String.get p)
     (FeatureVectorSpoofer.calculateHash Data JSON_stringify sm data1 index) =
   Some (String.get 0
     (extensionDigit (substring0 8 (removeDashes (SessionManager.getMainSessionId sm)))
        index p))).
Proof.
  intros Hp.
  assert (Hone : forall data,
    option_map (String.get p)
      (FeatureVectorSpoofer.calculateHash Data JSON_stringify sm data index) =
    Some (if (p <? 64)%nat
          then String.get 0
                 (extensionDigit
                    (substring0 8 (removeDashes (SessionManager.getMainSessionId sm))) index p)
          else None)).
  { intros data.
    destruct (calculateHash_explicit Data JSON_stringify sm data index) as [b [Hb ->]].
    cbn [option_map]. f_equal. rewrite string_get_app.
    destruct (p <? String.length b)%nat eqn:E; [apply Nat.ltb_lt in E; lia |].
    destruct (p <? 64)%nat eqn:E64.
    - apply Nat.ltb_lt in E64. rewrite extensionDigits_get by lia.
      f_equal. f_equal. lia.
    - apply Nat.ltb_ge in E64. apply string_get_beyond.
      rewrite extensionDigits_length. lia. }
  split.
  - now rewrite (Hone data1), (Hone data2).
  - intros H64. rewrite (Hone data1). apply Nat.ltb_lt in H64. now rewrite H64.
Qed.

Lemma X_hash_tail_ignores_data_witness :
  let sm := {| SessionManager.main := "3f2a9c1e-1b2c-4d3e-8f4a-5b6c7d8e9f0a";
               SessionManager.user := ""; SessionManager.anonymous := "" |} in
  8 <= 20 /\
  option_map (String.get 20) (FeatureVectorSpoofer.calculateHash string quoted sm "en-US" 17) =
  option_map (String.get 20) (FeatureVectorSpoofer.calculateHash string quoted sm "vscode" 17).
Proof.
  cbv zeta. split; [lia |].
  refine (proj1 (X_hash_tail_ignores_data string quoted _ "en-US" "vscode" 17 20 _)). lia.
Defined.

(** X11: Of a session id in UUID form only the first eight characters reach
    the hash: two such ids that agree there give the same result for all
    data and every index. *)
Theorem X_hash_reads_eight_id_chars (Data : Type) (JSON_stringify : Data -> string)
    (sm1 sm2 : SessionManager.t) (data : Data) (index : Z) :
  matchClasses uuidPattern (SessionManager.getMainSessionId sm1) = true ->
  matchClasses uuidPattern (SessionManager.getMainSessionId sm2) = true ->
  substring0 8 (SessionManager.getMainSessionId sm1) =
  substring0 8 (SessionManager.getMainSessionId sm2) ->
  FeatureVectorSpoofer.calculateHash Data JSON_stringify sm1 data index =
  FeatureVectorSpoofer.calculateHash Data JSON_stringify sm2 data index.
Proof.
  intros H1 H2 Heq. unfold FeatureVectorSpoofer.calculateHash.
  rewrite (uuid_seed_prefix 8 _ _ H1), (uuid_seed_prefix 8 _ _ H2), Heq. reflexivity.
Qed.

Lemma X_hash_reads_eight_id_chars_witness :
  let sm1 := {| SessionManager.main := "3f2a9c1e-1b2c-4d3e-8f4a-5b6c7d8e9f0a";
                SessionManager.user := ""; SessionManager.anonymous := "" |} in
  let sm2 := {| SessionManager.main := "3f2a9c1e-ffff-4fff-bfff-ffffffffffff";
                SessionManager.user := ""; SessionManager.anonymous := "" |} in
  (matchClasses uuidPattern (SessionManager.getMainSessionId sm1) = true /\
   matchClasses uuidPattern (SessionManager.getMainSessionId sm2) = true /\
   substring0 8 (SessionManager.getMainSessionId sm1) =
   substring0 8 (SessionManager.getMainSessionId sm2)) /\
  FeatureVectorSpoofer.calculateHash string quoted sm1 "en-US" 17 =
  FeatureVectorSpoofer.calculateHash string quoted sm2 "en-US" 17.
Proof.
  cbv zeta. split; [repeat split; reflexivity |].
  apply X_hash_reads_eight_id_chars; reflexivity.
Defined.

(** ** Occurrences of one string in another *)

Lemma prefix_iff (p s : string) : String.prefix p s = true <-> exists b, s = p ++ b.
Proof.
  revert s. induction p as [|c p IH]; intros s.
  - rewrite prefix_empty. split; [intros _; now exists s | reflexivity].
  - destruct s as [|d s]; simpl.
    + split; [discriminate | intros [b Hb]; discriminate].
    + destruct (ascii_dec c d) as [->|Hne].
      * rewrite IH. split; intros [b Hb]; exists b; [now rewrite Hb | now injection Hb].
      * split; [discriminate | intros [b Hb]; simpl in Hb; injection Hb as H1 H2; congruence].
Qed.

Lemma includes_iff (s sub : string) :
  includes s sub = true <-> exists a b, s = a ++ sub ++ b.
Proof.
  induction s as [|c s IH].
  - change (includes "" sub) with (String.prefix sub "" || false).
    rewrite orb_false_r, prefix_iff. split.
    + intros [b Hb]. now exists "", b.
    + intros [a [b Hab]]. destruct a; [now exists b | discriminate].
  - change (includes (String c s) sub) with (String.prefix sub (String c s) || includes s sub).
    rewrite orb_true_iff, prefix_iff, IH. split.
    + intros [[b Hb] | [a [b Hab]]]; [now exists "", b |].
      exists (String c a), b. simpl. now rewrite Hab.
    + intros [[|x a] [b Hab]]; [left; now exists b |].
      right. exists a, b. simpl in Hab. now injection Hab.
Qed.




Lemma some_In {A : Type} (f : A -> bool) (l : list A) (x : A) :
  In x l -> f x = true -> some f l = true.
Proof. intros Hin Hf. apply existsb_exists. now exists x. Qed.

(** ** The tiers of the classifier against each other *)









(** The first component of a branch on the answer of [shouldInterceptUrl]. *)
Lemma fst_intercept_branch {A : Type} (r : bool * URLClassificationCache.t) (x y : A) :
  fst (let (intercept, c) := r in if intercept then (x, c) else (y, c)) =
  if fst r then x else y.
Proof. destruct r as [[|] c]; reflexivity. Qed.

Lemma snd_intercept_branch {A : Type} (r : bool * URLClassificationCache.t) (x y : A) :
  snd (let (intercept, c) := r in if intercept then (x, c) else (y, c)) = snd r.
Proof. destruct r as [[|] c]; reflexivity. Qed.

(** ** The transports *)








(** With [/v1/track] the shims part: [fetch] fabricates the Segment
    acknowledgement, the XMLHttpRequest shim and the Axios interceptor
    send the request on. *)
Example transports_differ_on_track :
  let url := "https://x.example/v1/track" in
  fetchVerdict (fst (fetch url JUndefined 0 URLClassificationCache.init)) = BlockSegment /\
  xhrVerdict (fst (xhrOpen url 0 URLClassificationCache.init)) = Forward /\
  axiosVerdict (fst (axiosRequest (Some url) JUndefined 0 URLClassificationCache.init)) = Forward.
Proof. cbv zeta. repeat split; vm_compute; reflexivity. Qed.



Example http_forwards_precise_endpoint :
  let url := "https://example.com/usage" in
  fst (httpRequest (HttpUrlText url) 0 URLClassificationCache.init) = HttpOriginal /\
  fst (fetch url JUndefined 0 URLClassificationCache.init) = Fabricated mockResponse.
Proof. cbv zeta. split; vm_compute; reflexivity. Qed.

Lemma importantPattern_urlDecision (url p : string) :
  In p importantPatterns -> includes (toLowerCase url) p = true -> urlDecision url = false.
Proof.
  intros Hin Hp. unfold urlDecision, isImportantUrl.
  rewrite (some_In (fun pattern => includes (toLowerCase url) pattern) importantPatterns
             p Hin Hp).
  simpl. apply andb_false_r.
Qed.

Lemma portSuffix_colon (port : PortOption) :
  portSuffix port <> "" -> exists t, portSuffix port = ":" ++ t.
Proof.
  destruct port as [| n | s]; simpl; [congruence | |].
  - destruct (n =? 0)%N; [congruence | eauto].
  - destruct (String.length s =? 0)%nat; [congruence | eauto].
Qed.

(** X16: A request that [http.request] is to send to [localhost] or
    [127.0.0.1] (in any case of the letters) with a port is always sent on,
    whatever its protocol and path: the address built from the options
    contains the marker [localhost:] or [127.0.0.1:]. *)
Theorem X_http_local_port_forwarded (o : RequestOptions) (now : Z)
    (c : URLClassificationCache.t) :
  reachable c ->
  let hostname := orDefault (opt_hostname o) (orDefault (opt_host o) "localhost") in
  toLowerCase hostname = "localhost" \/ toLowerCase hostname = "127.0.0.1" ->
  portSuffix (opt_port o) <> "" ->
  fst (httpRequest (HttpOptionsObject o) now c) = HttpOriginal.
Proof.
  intros Hr hostname Hh Hp. unfold httpRequest. cbv zeta.
  rewrite fst_intercept_branch, (shouldInterceptUrl_reachable _ _ _ _ Hr).
  destruct (portSuffix_colon _ Hp) as [t Ht].
  assert (Hd : urlDecision (buildUrlFromOptions (HttpOptionsObject o)) = false).
  { cbn [buildUrlFromOptions]. fold hostname. rewrite Ht.
    set (protocol := orDefault (opt_protocol o) "http:").
    set (path := orDefault (opt_path o) "/").
    destruct Hh as [Hh | Hh].
    - apply (importantPattern_urlDecision _ "localhost:"); [simpl; tauto |].
      apply includes_iff.
      exists (toLowerCase (protocol ++ "//")), (toLowerCase (t ++ path)).
      rewrite <- !string_app_assoc, !toLowerCase_app, Hh.
      rewrite !string_app_assoc. reflexivity.
    - apply (importantPattern_urlDecision _ "127.0.0.1:"); [simpl; tauto |].
      apply includes_iff.
      exists (toLowerCase (protocol ++ "//")), (toLowerCase (t ++ path)).
      rewrite <- !string_app_assoc, !toLowerCase_app, Hh.
      rewrite !string_app_assoc. reflexivity. }
  now rewrite Hd.
Qed.

Lemma X_http_local_port_forwarded_witness :
  let o := {| opt_protocol := Some "https:"; opt_hostname := None; opt_host := Some "LocalHost";
              opt_port := PortNumber 8080; opt_path := Some "/analytics/session_id" |} in
  let c := snd (shouldInterceptUrl (JString "https://example.com/a") JUndefined 1
                  URLClassificationCache.init) in
  reachable c /\
  buildUrlFromOptions (HttpOptionsObject o) = "https://LocalHost:8080/analytics/session_id" /\
  fst (httpRequest (HttpOptionsObject o) 2 c) = HttpOriginal.
Proof.
  cbv zeta.
  split; [exact (reachable_intercept _ _ _ _ reachable_init) |].
  split; [vm_compute; reflexivity |].
  apply X_http_local_port_forwarded.
  - exact (reachable_intercept _ _ _ _ reachable_init).
  - left. vm_compute; reflexivity.
  - vm_compute; discriminate.
Defined.

(** Without a port the same request is answered with the mock
    response. *)
Example http_local_without_port_mocked :
  let o := {| opt_protocol := Some "https:"; opt_hostname := None; opt_host := Some "LocalHost";
              opt_port := PortAbsent; opt_path := Some "/analytics/session_id" |} in
  fst (httpRequest (HttpOptionsObject o) 0 URLClassificationCache.init) = HttpMock.
Proof. vm_compute; reflexivity. Qed.

(** ** Session identifiers in request headers *)

Lemma generateUUID_spec (rnd : nat -> RandomDouble) (k : nat) :
  (forall j, inUnitInterval (rnd j)) ->
  snd (generateUUID rnd k) = k + 31 /\
  matchClasses uuidPattern (fst (generateUUID rnd k)) = true.
Proof.
  intros Hr. destruct (generateUUID_explicit rnd k Hr) as [h [v [Hh [Hv ->]]]].
  split; [reflexivity | exact (uuidText_pattern h v Hh Hv)].
Qed.

Lemma matchClasses_isSessionId (s : string) :
  matchClasses uuidPattern s = true -> isSessionId (JString s) = true.
Proof. intros H. unfold isSessionId. now rewrite H. Qed.

(** X17: The replaced [setRequestHeader] hands on the name it was given; it
    changes the value only of a header whose name is, in any case of the
    letters, [x-request-session-id] and whose value is a session id, and
    then to the main session id.  When the main session id is itself a
    session id, setting the header again with the value handed on changes
    nothing more. *)
Theorem X_setRequestHeader_replaces_session_id (sm : SessionManager.t) (name : string)
    (value : js_value) :
  let sent := xhrSetRequestHeader sm name value in
  fst sent = name /\
  (snd sent <> value ->
   toLowerCase name = "x-request-session-id" /\ isSessionId value = true /\
   snd sent = JString (SessionManager.getMainSessionId sm)) /\
  (isSessionId (JString (SessionManager.getMainSessionId sm)) = true ->
   xhrSetRequestHeader sm name (snd sent) = sent).
Proof.
  cbv zeta. unfold xhrSetRequestHeader.
  destruct (String.eqb (toLowerCase name) "x-request-session-id") eqn:En; simpl.
  - apply String.eqb_eq in En.
    destruct (isSessionId value) eqn:Ev; simpl.
    + split; [reflexivity |]. split; [auto |].
      intros Hm. now rewrite Hm.
    + split; [reflexivity |]. split; [congruence |]. intros _. now rewrite Ev.
  - split; [reflexivity |]. split; [congruence | reflexivity].
Qed.

Lemma X_setRequestHeader_replaces_session_id_witness :
  let sm := {| SessionManager.main := "3f2a9c1e-1b2c-4d3e-8f4a-5b6c7d8e9f0a";
               SessionManager.user := ""; SessionManager.anonymous := "" |} in
  let sent := xhrSetRequestHeader sm "X-Request-Session-Id" (JString "real-session-0123456789") in
  (snd sent <> JString "real-session-0123456789" /\
   isSessionId (JString (SessionManager.getMainSessionId sm)) = true) /\
  snd sent = JString "3f2a9c1e-1b2c-4d3e-8f4a-5b6c7d8e9f0a" /\
  xhrSetRequestHeader sm "X-Request-Session-Id" (snd sent) = sent.
Proof.
  cbv zeta. split; [split; [vm_compute; discriminate | vm_compute; reflexivity] |].
  refine (let H := X_setRequestHeader_replaces_session_id
                     {| SessionManager.main := "3f2a9c1e-1b2c-4d3e-8f4a-5b6c7d8e9f0a";
                        SessionManager.user := ""; SessionManager.anonymous := "" |}
                     "X-Request-Session-Id" (JString "real-session-0123456789") in
          conj (proj2 (proj2 (proj1 (proj2 H) _))) (proj2 (proj2 H) _)).
  - vm_compute; discriminate.
  - vm_compute; reflexivity.
Defined.

(** X18: The three identifiers of [SessionManager] use up 93 values of
    [Math.random()], and for any values it can return each of them is in
    the form of a UUID, hence a session id in the sense of [isSessionId]:
    a header that already carries the main session id is replaced by
    itself. *)
Theorem X_sessionIds_are_session_ids (rnd : nat -> RandomDouble) (k : nat) :
  (forall j, inUnitInterval (rnd j)) ->
  let sm := fst (sessionIds rnd k) in
  snd (sessionIds rnd k) = k + 93 /\
  isSessionId (JString (SessionManager.getMainSessionId sm)) = true /\
  isSessionId (JString (SessionManager.getUserId sm)) = true /\
  isSessionId (JString (SessionManager.getAnonymousId sm)) = true /\
  forall name,
    snd (xhrSetRequestHeader sm name (JString (SessionManager.getMainSessionId sm))) =
    JString (SessionManager.getMainSessionId sm).
Proof.
  intros Hr sm. subst sm. unfold sessionIds.
  destruct (generateUUID_spec rnd k Hr) as [Hk1 Hm1].
  destruct (generateUUID rnd k) as [main k1]. cbn [fst snd] in Hk1, Hm1.
  destruct (generateUUID_spec rnd k1 Hr) as [Hk2 Hm2].
  destruct (generateUUID rnd k1) as [user k2]. cbn [fst snd] in Hk2, Hm2.
  destruct (generateUUID_spec rnd k2 Hr) as [Hk3 Hm3].
  destruct (generateUUID rnd k2) as [anonymous k3]. cbn [fst snd] in Hk3, Hm3.
  cbn [fst snd SessionManager.getMainSessionId SessionManager.getUserId
       SessionManager.getAnonymousId SessionManager.main SessionManager.user
       SessionManager.anonymous].
  split; [lia |].
  split; [now apply matchClasses_isSessionId |].
  split; [now apply matchClasses_isSessionId |].
  split; [now apply matchClasses_isSessionId |].
  intros name. unfold xhrSetRequestHeader.
  cbn [SessionManager.getMainSessionId SessionManager.main].
  now destruct (String.eqb (toLowerCase name) "x-request-session-id" && isSessionId (JString main)).
Qed.

Lemma X_sessionIds_are_session_ids_witness :
  let rnd := fun j : nat => {| numerator := N.of_nat (j * 37 + 5) mod 64; exponent := 6 |} in
  (forall j, inUnitInterval (rnd j)) /\
  snd (sessionIds rnd 0) = 93 /\
  isSessionId (JString (SessionManager.getMainSessionId (fst (sessionIds rnd 0)))) = true.
Proof.
  cbv zeta.
  assert (Hr : forall j : nat,
             inUnitInterval {| numerator := N.of_nat (j * 37 + 5) mod 64; exponent := 6 |}).
  { intros j. unfold inUnitInterval. cbn [numerator exponent]. apply N.mod_lt. discriminate. }
  split; [exact Hr |].
  refine (let H := X_sessionIds_are_session_ids
                     (fun j : nat => {| numerator := N.of_nat (j * 37 + 5) mod 64; exponent := 6 |})
                     0 Hr in conj (proj1 H) (proj1 (proj2 H))).
Defined.

(** ** The fake-data cache and the feature vector *)



Lemma featureVectorEntry_spec (Data : Type) (JSON_stringify : Data -> string)
    (sm : SessionManager.t) (fakeData : Data) (i : nat) :
  exists h, String.length h = 64 /\ allHex h = true /\
    featureVectorEntry Data JSON_stringify sm fakeData i =
    Some (if (i =? 12)%nat then "v1#" ++ h else h).
Proof.
  unfold featureVectorEntry, FeatureVectorSpoofer.calculateVersionHash.
  destruct (i =? 12)%nat.
  - destruct (calculateHash_spec Data JSON_stringify sm fakeData 12) as [h [-> [Hl Hx]]].
    now exists h.
  - destruct (calculateHash_spec Data JSON_stringify sm fakeData (Z.of_nat i))
      as [h [-> [Hl Hx]]].
    now exists h.
Qed.

Lemma featureVectorLoop_spec (Data : Type) (JSON_stringify : Data -> string)
    (sm : SessionManager.t) (fakeData : nat -> Data) (i n : nat) :
  exists fv,
    featureVectorLoop Data JSON_stringify sm fakeData i n = Some fv /\
    map fst fv = seq i n /\
    forall j e, In (j, e) fv ->
      exists h, String.length h = 64 /\ allHex h = true /\
                e = if (j =? 12)%nat then "v1#" ++ h else h.
Proof.
  revert i. induction n as [|n IH]; intros i.
  - exists []. simpl. repeat split. intros j e [].
  - simpl. destruct (featureVectorEntry_spec Data JSON_stringify sm (fakeData i) i)
      as [h [Hl [Hx ->]]].
    destruct (IH (S i)) as [fv [-> [Hidx Hall]]].
    eexists. split; [reflexivity |]. split; [simpl; now rewrite Hidx |].
    intros j e [Heq | Hin]; [| now apply Hall].
    injection Heq as <- <-. now exists h.
Qed.

(** X20: [generateCompleteFeatureVector] always returns, with exactly the 42
    indices 0 to 41 in order; every entry is 64 hexadecimal digits, except
    the entry at index 12, which is [v1#] followed by 64 hexadecimal
    digits.  This holds for all values the generators return and every
    session. *)
Theorem X_feature_vector_shape (Data : Type) (JSON_stringify : Data -> string)
    (sm : SessionManager.t) (fakeData : nat -> Data) :
  exists fv,
    generateCompleteFeatureVector Data JSON_stringify sm fakeData = Some fv /\
    map fst fv = seq 0 42 /\
    forall j e, In (j, e) fv ->
      exists h, String.length h = 64 /\ allHex h = true /\
                e = if (j =? 12)%nat then "v1#" ++ h else h.
Proof. apply featureVectorLoop_spec. Qed.
